(** * DevWell assistant chat widget (static/js/assistant_chat.js)

    A shallow embedding of the widget's text formatter [formatText] and of
    its event handlers (toggle, close, submit and the continuations of the
    two asynchronous requests), followed by the properties of the widget.

    JavaScript strings are sequences of UTF-16 code units; they are modelled
    as lists of numbers, so that the regular expressions of [formatText] and
    [String.prototype.trim] see exactly the characters the engine sees. *)

From Stdlib Require Import List NArith Bool String Ascii Arith Lia.
From Stdlib Require Import Floats.SpecFloat.
Import ListNotations.

Local Open Scope N_scope.

(* ===================================================================== *)
(** ** Strings *)
(* ===================================================================== *)

Module JsString.

Definition code_unit := N.
Definition jsstring := list code_unit.

(** The string literal [s] of the source (all literals there are ASCII). *)
Definition js (s : string) : jsstring :=
  map N_of_ascii (list_ascii_of_string s).

Definition LF : code_unit := 10.

Fixpoint str_eqb (a b : jsstring) : bool :=
  match a, b with
  | [], [] => true
  | x :: a', y :: b' => (x =? y) && str_eqb a' b'
  | _, _ => false
  end.

Definition is_empty (s : jsstring) : bool :=
  match s with [] => true | _ :: _ => false end.

(** [starts_with p s]: the text [p] occurs in [s] at position 0. *)
Fixpoint starts_with (p s : jsstring) : bool :=
  match p, s with
  | [], _ => true
  | x :: p', y :: s' => (x =? y) && starts_with p' s'
  | _ :: _, [] => false
  end.

(** [String.prototype.includes]. *)
Fixpoint includes (needle s : jsstring) : bool :=
  starts_with needle s ||
  match s with
  | [] => false
  | _ :: t => includes needle t
  end.

(** ECMAScript LineTerminator: LF, CR, LS, PS. *)
Definition is_line_terminator (c : code_unit) : bool :=
  (c =? 10) || (c =? 13) || (c =? 8232) || (c =? 8233).

(** ECMAScript WhiteSpace (TAB, VT, FF, ZWNBSP and the Unicode space
    separators) together with LineTerminator: what [trim] strips. *)
Definition is_whitespace (c : code_unit) : bool :=
  (c =? 9) || (c =? 11) || (c =? 12) || (c =? 32) || (c =? 160) ||
  (c =? 5760) || ((8192 <=? c) && (c <=? 8202)) || (c =? 8239) ||
  (c =? 8287) || (c =? 12288) || (c =? 65279) || is_line_terminator c.

Fixpoint trim_start (s : jsstring) : jsstring :=
  match s with
  | c :: t => if is_whitespace c then trim_start t else s
  | [] => []
  end.

Definition trim_end (s : jsstring) : jsstring :=
  rev (trim_start (rev s)).

(** [String.prototype.trim]. *)
Definition trim (s : jsstring) : jsstring :=
  trim_end (trim_start s).

End JsString.
Import JsString.

(* ===================================================================== *)
(** ** Global regular-expression replacement *)
(* ===================================================================== *)

Module Regex.

(** A matcher answers, for the text that starts at the scan position,
    whether the regular expression matches there; if it does it gives the
    expanded replacement and the number of code units matched.  None of the
    three expressions of the widget matches the empty string. *)
Definition matcher := jsstring -> option (jsstring * nat).

(** [text.replace(/re/g, repl)]: scan left to right; at a match emit the
    replacement and resume after the match, otherwise keep the code unit.
    [skip] counts the code units of the current match still to be passed. *)
Fixpoint replace_from (m : matcher) (skip : nat) (s : jsstring) : jsstring :=
  match s with
  | [] => []
  | c :: t =>
      match skip with
      | S k => replace_from m k t
      | O =>
          match m s with
          | Some (rep, len) => rep ++ replace_from m (Nat.pred len) t
          | None => c :: replace_from m 0 t
          end
      end
  end.

Definition replace_all (m : matcher) (s : jsstring) : jsstring :=
  replace_from m 0 s.

(** [.+] : the longest run of code units that are not line terminators
    (the expression has no [s] flag); the match fails when it is empty. *)
Fixpoint dot_run (s : jsstring) : jsstring :=
  match s with
  | c :: t => if is_line_terminator c then [] else c :: dot_run t
  | [] => []
  end.

(** [\* (.+)] at the start of [s]; [off] code units were matched before. *)
Definition star_item (off : nat) (s : jsstring) : option (jsstring * nat) :=
  if starts_with (js "* ") s then
    match dot_run (skipn 2 s) with
    | [] => None
    | cap => Some (js "<li>" ++ cap ++ js "</li>", (off + 2 + List.length cap)%nat)
    end
  else None.

(** [/\n?\* (.+)/g] with replacement ['<li>$1</li>'].  The greedy [\n?]
    takes a newline first and gives it back when the rest fails. *)
Definition match_list_item : matcher := fun s =>
  match s with
  | c :: t =>
      if c =? LF then
        match star_item 1 t with
        | Some r => Some r
        | None => star_item 0 s
        end
      else star_item 0 s
  | [] => None
  end.

(** [/(Answer:|Response:)/g] with replacement ['<strong>$1</strong>']. *)
Definition match_emphasis : matcher := fun s =>
  if starts_with (js "Answer:") s then
    Some (js "<strong>" ++ js "Answer:" ++ js "</strong>", 7%nat)
  else if starts_with (js "Response:") s then
    Some (js "<strong>" ++ js "Response:" ++ js "</strong>", 9%nat)
  else None.

Fixpoint newline_run (s : jsstring) : nat :=
  match s with
  | c :: t => if c =? LF then S (newline_run t) else O
  | [] => O
  end.

(** [/\n{2,}/g] with replacement ['</ul><br><ul>']. *)
Definition match_list_break : matcher := fun s =>
  let n := newline_run s in
  if (2 <=? n)%nat then Some (js "</ul><br><ul>", n) else None.

End Regex.
Import Regex.

(* ===================================================================== *)
(** ** formatText *)
(* ===================================================================== *)

Definition formatText (text : jsstring) : jsstring :=
  let html :=
    replace_all match_list_break
      (replace_all match_emphasis
         (replace_all match_list_item text)) in
  if includes (js "<li>") html then js "<ul>" ++ html ++ js "</ul>" else html.

(* ===================================================================== *)
(** ** Values and exceptions *)
(* ===================================================================== *)

#[local] Set Warnings "-register-all".

(** What [res.json()] resolves to.  A number is an IEEE double; an object is
    the list of its own properties (the parser has resolved duplicates). *)
Inductive json : Type :=
| JNull
| JBool (b : bool)
| JNum (x : spec_float)
| JStr (s : jsstring)
| JArr (items : list json)
| JObj (props : list (jsstring * json)).

(** The values the submit handler passes around: [undefined], or a parsed
    JSON value (a string literal of the source is a [JStr]). *)
Inductive jsval : Type :=
| VUndefined
| VJson (j : json).

Definition str (s : jsstring) : jsval := VJson (JStr s).

Inductive error : Type :=
| TypeError        (* raised by the engine: property of null, not a function *)
| Rejection.       (* an awaited promise rejected *)

Inductive result (A : Type) : Type :=
| Ok (a : A)
| Throw (e : error).
Arguments Ok {A} a.
Arguments Throw {A} e.

Fixpoint own_property (k : jsstring) (props : list (jsstring * json))
  : option json :=
  match props with
  | [] => None
  | (k', v) :: rest => if str_eqb k k' then Some v else own_property k rest
  end.

(** [data.answer].  Reading a property of [null] throws; primitives, arrays
    and objects without the property give [undefined]. *)
Definition get_answer (data : json) : result jsval :=
  match data with
  | JNull => Throw TypeError
  | JObj props =>
      match own_property (js "answer") props with
      | Some v => Ok (VJson v)
      | None => Ok VUndefined
      end
  | _ => Ok VUndefined
  end.

(** ToBoolean. *)
Definition truthy (v : jsval) : bool :=
  match v with
  | VUndefined => false
  | VJson JNull => false
  | VJson (JBool b) => b
  | VJson (JNum x) =>
      match x with
      | S754_zero _ | S754_nan => false
      | _ => true
      end
  | VJson (JStr s) => negb (is_empty s)
  | VJson (JArr _) | VJson (JObj _) => true
  end.

(** [a || b]. *)
Definition or_else (a b : jsval) : jsval := if truthy a then a else b.

(** [formatText(text)] for an arbitrary argument: [text.replace] is a
    function only on strings, every other value throws a TypeError. *)
Definition formatText_of (text : jsval) : result jsstring :=
  match text with
  | VJson (JStr s) => Ok (formatText s)
  | _ => Throw TypeError
  end.

(* ===================================================================== *)
(** ** The widget *)
(* ===================================================================== *)

Inductive Origin : Type := user | bot.

Definition origin_name (o : Origin) : jsstring :=
  match o with user => js "user" | bot => js "bot" end.

(** A child of [#assistant-messages]. *)
Record Message : Type := {
  origin : Origin;
  innerHTML : jsstring
}.

Definition className (m : Message) : jsstring :=
  js "assistant-msg " ++ origin_name (origin m).

(** The argument of a [fetch] call.  [csrf_header] is the value given for
    [X-CSRFToken]: a string, or [None] for JavaScript's [null];
    [body_message] is the [message] of the object given to
    [JSON.stringify]. *)
Record Request : Type := {
  url : jsstring;
  method : jsstring;
  content_type : option jsstring;
  csrf_header : option jsstring;
  body_message : option jsstring
}.

(** A suspended [await]. *)
Inductive Task : Type :=
| ReindexFetch     (* triggerReindex: await fetch(...) *)
| ChatFetch        (* submit: await fetch(...) *)
| ChatJson.        (* submit: await res.json() *)

Inductive Effect : Type :=
| EAppend (m : Message)      (* appendChild on the message list *)
| EFetch (r : Request)       (* fetch called *)
| EWarn (e : error)          (* console.warn *)
| ELog (e : error).          (* console.log *)

Record Widget : Type := {
  open : bool;                 (* chatBox.classList contains 'open' *)
  reindexed : bool;
  input_value : jsstring;      (* #assistant-input .value *)
  messages : list Message;     (* children of #assistant-messages *)
  csrf_meta : option (option jsstring);
      (* the page's meta[name="csrf-token"]: [None] when the page has none,
         otherwise its content attribute ([None] for a missing attribute) *)
  pending : list Task;         (* awaits not yet settled *)
  effects : list Effect        (* what the widget did, in order *)
}.

Definition set_open (b : bool) (w : Widget) : Widget :=
  {| open := b; reindexed := reindexed w; input_value := input_value w;
     messages := messages w; csrf_meta := csrf_meta w;
     pending := pending w; effects := effects w |}.

Definition set_reindexed (b : bool) (w : Widget) : Widget :=
  {| open := open w; reindexed := b; input_value := input_value w;
     messages := messages w; csrf_meta := csrf_meta w;
     pending := pending w; effects := effects w |}.

Definition set_input_value (v : jsstring) (w : Widget) : Widget :=
  {| open := open w; reindexed := reindexed w; input_value := v;
     messages := messages w; csrf_meta := csrf_meta w;
     pending := pending w; effects := effects w |}.

Definition set_messages (l : list Message) (w : Widget) : Widget :=
  {| open := open w; reindexed := reindexed w; input_value := input_value w;
     messages := l; csrf_meta := csrf_meta w;
     pending := pending w; effects := effects w |}.

Definition set_csrf_meta (m : option (option jsstring)) (w : Widget) : Widget :=
  {| open := open w; reindexed := reindexed w; input_value := input_value w;
     messages := messages w; csrf_meta := m;
     pending := pending w; effects := effects w |}.

Definition set_pending (l : list Task) (w : Widget) : Widget :=
  {| open := open w; reindexed := reindexed w; input_value := input_value w;
     messages := messages w; csrf_meta := csrf_meta w;
     pending := l; effects := effects w |}.

Definition emit (e : Effect) (w : Widget) : Widget :=
  {| open := open w; reindexed := reindexed w; input_value := input_value w;
     messages := messages w; csrf_meta := csrf_meta w;
     pending := pending w; effects := effects w ++ [e] |}.

(** The page after the script has run: panel closed, nothing sent. *)
Definition init (meta : option (option jsstring)) : Widget :=
  {| open := false; reindexed := false; input_value := [];
     messages := []; csrf_meta := meta; pending := []; effects := [] |}.

(* ===================================================================== *)
(** ** Handlers *)
(* ===================================================================== *)

(** Handler code runs on the widget and may throw; what it did before the
    throw stays done. *)
Module Handler.

Definition M (A : Type) : Type := Widget -> result A * Widget.

Definition ret {A} (a : A) : M A := fun w => (Ok a, w).

Definition bind {A B} (m : M A) (k : A -> M B) : M B := fun w =>
  match m w with
  | (Ok a, w') => k a w'
  | (Throw e, w') => (Throw e, w')
  end.

Definition throw {A} (e : error) : M A := fun w => (Throw e, w).

Definition try_catch {A} (m : M A) (handler : error -> M A) : M A := fun w =>
  match m w with
  | (Ok a, w') => (Ok a, w')
  | (Throw e, w') => handler e w'
  end.

Definition lift {A} (r : result A) : M A := fun w => (r, w).

Definition get : M Widget := fun w => (Ok w, w).

Definition modify (f : Widget -> Widget) : M unit := fun w => (Ok tt, f w).

(** The state a handler leaves behind. *)
Definition exec {A} (m : M A) (w : Widget) : Widget := snd (m w).

End Handler.
Import Handler.

Declare Scope handler_scope.
Delimit Scope handler_scope with handler.
Notation "x <- m ;; k" := (bind m (fun x => k))
  (at level 61, m at next level, right associativity) : handler_scope.
Notation "m ;; k" := (bind m (fun _ => k))
  (at level 61, right associativity) : handler_scope.
Local Open Scope handler_scope.

(** [fetch(...)] followed by [await]: the call is made and the function
    suspends on [task]. *)
Definition fetch (r : Request) (task : Task) : M unit :=
  modify (fun w => set_pending (pending w ++ [task]) (emit (EFetch r) w)).

(** [scrollIntoView] changes nothing the widget reads. *)
Definition appendMessage (text : jsval) (from : Origin) : M unit :=
  html <- lift (formatText_of text) ;;
  let msg := {| origin := from; innerHTML := html |} in
  modify (fun w => emit (EAppend msg) (set_messages (messages w ++ [msg]) w)).

Definition getCsrf : M (option jsstring) :=
  w <- get ;;
  ret (match csrf_meta w with
       | Some content => content
       | None => Some []
       end).

Definition reindex_request (token : option jsstring) : Request :=
  {| url := js "/assistant/reindex"; method := js "POST";
     content_type := None; csrf_header := token; body_message := None |}.

(** [triggerReindex] up to its [await]. *)
Definition triggerReindex : M unit :=
  try_catch
    (token <- getCsrf ;;
     fetch (reindex_request token) ReindexFetch)
    (fun e => modify (emit (EWarn e))).

(** [triggerReindex] after its [await]: a rejection is caught and logged. *)
Definition reindex_resume (ok : bool) : M unit :=
  try_catch
    (if ok then ret tt else throw Rejection)
    (fun e => modify (emit (EWarn e))).

(** [chatBox.classList.toggle('open')]. *)
Definition classList_toggle : M bool :=
  w <- get ;;
  modify (set_open (negb (open w))) ;;
  ret (negb (open w)).

Definition toggle_click : M unit :=
  opened <- classList_toggle ;;
  w <- get ;;
  if opened && negb (reindexed w) then
    modify (set_reindexed true) ;;
    triggerReindex
  else ret tt.

Definition close_click : M unit :=
  modify (set_open false).

Definition chat_request (csrf : option jsstring) (text : jsstring) : Request :=
  {| url := js "/assistant/chat"; method := js "POST";
     content_type := Some (js "application/json");
     csrf_header := csrf; body_message := Some text |}.

(** [document.querySelector('meta[name="csrf-token"]').getAttribute('content')]. *)
Definition meta_content : M (option jsstring) :=
  w <- get ;;
  match csrf_meta w with
  | Some content => ret content
  | None => throw TypeError
  end.

(** The [catch] clause of the submit handler. *)
Definition chat_catch (err : error) : M unit :=
  modify (emit (ELog err)) ;;
  appendMessage (str (js "Error contacting assistant.")) bot.

(** The submit handler up to its first [await]. *)
Definition submit : M unit :=
  w <- get ;;
  let text := trim (input_value w) in
  if is_empty text then ret tt
  else
    appendMessage (str text) user ;;
    modify (set_input_value []) ;;
    try_catch
      (csrf <- meta_content ;;
       fetch (chat_request csrf text) ChatFetch)
      chat_catch.

(** The submit handler from [await fetch(...)] to [await res.json()]. *)
Definition submit_resume_fetch (ok : bool) : M unit :=
  try_catch
    (if ok then modify (fun w => set_pending (pending w ++ [ChatJson]) w)
     else throw Rejection)
    chat_catch.

(** The submit handler after [await res.json()]; [None] is a rejection
    (the body is not JSON, or could not be read). *)
Definition submit_resume_json (r : option json) : M unit :=
  try_catch
    (match r with
     | None => throw Rejection
     | Some data =>
         answer <- lift (get_answer data) ;;
         appendMessage
           (or_else answer (str (js "Sorry, I had trouble answering."))) bot
     end)
    chat_catch.

(* ===================================================================== *)
(** ** Events *)
(* ===================================================================== *)

Inductive Event : Type :=
| ClickToggle
| ClickClose
| SubmitForm
| UserTypes (v : jsstring)                     (* the input's value changes *)
| PageSetsMeta (m : option (option jsstring))  (* the page edits its meta tag *)
| FetchSettles (n : nat) (ok : bool)           (* the n-th pending fetch settles *)
| JsonSettles (n : nat) (r : option json).     (* the n-th pending res.json() settles *)

Fixpoint remove_nth {A} (n : nat) (l : list A) : list A :=
  match l, n with
  | [], _ => []
  | _ :: t, O => t
  | x :: t, S k => x :: remove_nth k t
  end.

Definition take_task (n : nat) (w : Widget) : Widget :=
  set_pending (remove_nth n (pending w)) w.

(** One turn of the event loop.  A settlement that names no matching pending
    await is not an event of this page and changes nothing. *)
Definition step (w : Widget) (ev : Event) : Widget :=
  match ev with
  | ClickToggle => exec toggle_click w
  | ClickClose => exec close_click w
  | SubmitForm => exec submit w
  | UserTypes v => set_input_value v w
  | PageSetsMeta m => set_csrf_meta m w
  | FetchSettles n ok =>
      match nth_error (pending w) n with
      | Some ReindexFetch => exec (reindex_resume ok) (take_task n w)
      | Some ChatFetch => exec (submit_resume_fetch ok) (take_task n w)
      | _ => w
      end
  | JsonSettles n r =>
      match nth_error (pending w) n with
      | Some ChatJson => exec (submit_resume_json r) (take_task n w)
      | _ => w
      end
  end.

Definition run (w : Widget) (evs : list Event) : Widget :=
  fold_left step evs w.

(** Observations on a widget. *)
Definition is_reindex (e : Effect) : bool :=
  match e with
  | EFetch r => str_eqb (url r) (js "/assistant/reindex")
  | _ => false
  end.

Definition reindex_calls (w : Widget) : nat :=
  List.length (filter is_reindex (effects w)).

Definition is_fetch (e : Effect) : bool :=
  match e with EFetch _ => true | _ => false end.

Definition fetches (w : Widget) : list Effect :=
  filter is_fetch (effects w).

Definition from_user (m : Message) : bool :=
  match origin m with user => true | bot => false end.

Definition from_bot (m : Message) : bool :=
  match origin m with user => false | bot => true end.

(* ===================================================================== *)
(** ** Vocabulary of the properties *)
(* ===================================================================== *)

(** The message the [catch] clause of the submit handler renders. *)
Definition error_message : Message :=
  {| origin := bot; innerHTML := js "Error contacting assistant." |}.

(** The message rendered for a response without a usable answer. *)
Definition sorry_message : Message :=
  {| origin := bot; innerHTML := js "Sorry, I had trouble answering." |}.

(** [append_child msg w]: [msg] is the new last child of the list. *)
Definition append_child (msg : Message) (w : Widget) : Widget :=
  emit (EAppend msg) (set_messages (messages w ++ [msg]) w).

(** A closed-to-open transition of the panel. *)
Definition opens (w : Widget) (ev : Event) : Prop :=
  ev = ClickToggle /\ open w = false.

(** The event makes the widget call the reindex endpoint. *)
Definition invokes_reindex (w : Widget) (ev : Event) : Prop :=
  reindex_calls (step w ev) <> reindex_calls w.

(** What the flag records: the calls made so far, and that an open panel
    has been opened by a toggle. *)
Definition flag_counts (w : Widget) : Prop :=
  reindex_calls w = (if reindexed w then 1%nat else 0%nat) /\
  (open w = true -> reindexed w = true).

(** The ways a chat exchange fails: the request is rejected, the body is
    not JSON, or an exception is thrown inside the [try] block (no token
    meta tag on the page, a [null] body, an answer that is not a string). *)
Inductive chat_failure (w : Widget) : Event -> Prop :=
| fail_network (n : nat) :
    nth_error (pending w) n = Some ChatFetch ->
    chat_failure w (FetchSettles n false)
| fail_not_json (n : nat) :
    nth_error (pending w) n = Some ChatJson ->
    chat_failure w (JsonSettles n None)
| fail_read_answer (n : nat) (data : json) (e : error) :
    nth_error (pending w) n = Some ChatJson ->
    get_answer data = Throw e ->
    chat_failure w (JsonSettles n (Some data))
| fail_format_answer (n : nat) (data : json) (answer : jsval) :
    nth_error (pending w) n = Some ChatJson ->
    get_answer data = Ok answer ->
    truthy answer = true ->
    (forall s, answer <> str s) ->
    chat_failure w (JsonSettles n (Some data))
| fail_no_meta :
    csrf_meta w = None ->
    trim (input_value w) <> [] ->
    chat_failure w SubmitForm.

(** The [catch] clause of the submit handler ran during the event: it is
    the only code that calls [console.log]. *)
Definition is_log (e : Effect) : bool :=
  match e with ELog _ => true | _ => false end.

Definition catch_ran (w : Widget) (ev : Event) : Prop :=
  filter is_log (effects (step w ev)) <> filter is_log (effects w).

(** The number of [<] code units of a text. *)
Definition count_lt (s : jsstring) : nat :=
  List.length (filter (N.eqb 60) s).

(** A matcher adds markup when each match is a non-empty prefix of the
    scanned text and its replacement holds more [<] than the match. *)
Definition adds_markup (m : matcher) : Prop :=
  forall s rep len,
    m s = Some (rep, len) ->
    exists matched rest,
      s = matched ++ rest /\ List.length matched = len /\ (1 <= len)%nat /\
      (count_lt matched < count_lt rep)%nat.

(** The expression matches nowhere in the text. *)
Fixpoint never_matches (m : matcher) (s : jsstring) : bool :=
  match s with
  | [] => true
  | _ :: t =>
      match m s with
      | Some _ => false
      | None => never_matches m t
      end
  end.

(** None of the three expressions of [formatText] matches in the text. *)
Definition unmatched (text : jsstring) : bool :=
  never_matches match_list_item text &&
  never_matches match_emphasis text &&
  never_matches match_list_break text.

(** The code unit [x] does not occur in the text. *)
Definition lacks (x : code_unit) (s : jsstring) : bool :=
  forallb (fun c => negb (c =? x)) s.

(** A code unit at which none of the three expressions can begin a match:
    not a newline, not [*], not [A], not [R]. *)
Definition inert (c : code_unit) : bool :=
  negb ((c =? 10) || (c =? 42) || (c =? 65) || (c =? 82)).

(** The text of one list item: not empty and on one line. *)
Definition one_line (item : jsstring) : bool :=
  negb (is_empty item) && forallb (fun c => negb (is_line_terminator c)) item.

(** Bullet lines [* item], joined by single newlines. *)
Definition bullet_lines (items : list jsstring) : jsstring :=
  match items with
  | [] => []
  | i :: rest => js "* " ++ i ++ List.concat (map (fun j => LF :: js "* " ++ j) rest)
  end.

(** The items as [formatText] renders them. *)
Definition list_items (items : list jsstring) : jsstring :=
  List.concat (map (fun i => js "<li>" ++ replace_all match_emphasis i ++ js "</li>")
            items).

(** Chat exchanges whose response has not been rendered yet. *)
Definition is_chat_task (t : Task) : bool :=
  match t with
  | ReindexFetch => false
  | ChatFetch | ChatJson => true
  end.

Definition chat_in_flight (w : Widget) : nat :=
  List.length (filter is_chat_task (pending w)).

(** The parsed response has an [answer] field: it is an object with an own
    property of that name.  No other JSON value has fields. *)
Definition has_answer_field (data : json) : bool :=
  match data with
  | JObj props =>
      match own_property (js "answer") props with
      | Some _ => true
      | None => false
      end
  | _ => false
  end.



(** [subseq a l]: the elements of [a] occur in [l], in the same order. *)
Inductive subseq {A : Type} : list A -> list A -> Prop :=
| subseq_nil (l : list A) : subseq [] l
| subseq_skip (x : A) (a l : list A) : subseq a l -> subseq a (x :: l)
| subseq_take (x : A) (a l : list A) : subseq a l -> subseq (x :: a) (x :: l).


Arguments formatText : simpl never.
Arguments js : simpl never.
Arguments trim : simpl never.

(* ===================================================================== *)
(** ** What each handler does to the widget *)
(* ===================================================================== *)

Ltac run_handler :=
  unfold step, exec, toggle_click, close_click, submit, submit_resume_fetch,
    submit_resume_json, reindex_resume, triggerReindex, classList_toggle,
    chat_catch, appendMessage, meta_content, getCsrf, fetch,
    try_catch, bind, ret, throw, lift, get, modify; simpl.

Lemma run_snoc (w : Widget) (evs : list Event) (ev : Event) :
  run w (evs ++ [ev]) = step (run w evs) ev.
Proof. unfold run. rewrite fold_left_app. reflexivity. Qed.

Lemma toggle_click_spec (w : Widget) :
  step w ClickToggle =
  if negb (open w) && negb (reindexed w) then
    set_pending (pending w ++ [ReindexFetch])
      (emit (EFetch (reindex_request
                       (match csrf_meta w with
                        | Some content => content
                        | None => Some []
                        end)))
         (set_reindexed true (set_open true w)))
  else set_open (negb (open w)) w.
Proof.
  destruct w as [o r i ms meta p eff].
  destruct o, r; reflexivity.
Qed.

Lemma close_click_spec (w : Widget) : step w ClickClose = set_open false w.
Proof. reflexivity. Qed.

Lemma formatText_error_text :
  formatText (js "Error contacting assistant.") = js "Error contacting assistant.".
Proof. vm_compute. reflexivity. Qed.

Lemma formatText_sorry_text :
  formatText (js "Sorry, I had trouble answering.") =
  js "Sorry, I had trouble answering.".
Proof. vm_compute. reflexivity. Qed.

Lemma appendMessage_string (t : jsstring) (from : Origin) (w : Widget) :
  appendMessage (str t) from w =
  (Ok tt, append_child {| origin := from; innerHTML := formatText t |} w).
Proof. reflexivity. Qed.

Lemma chat_catch_spec (e : error) (w : Widget) :
  exec (chat_catch e) w = append_child error_message (emit (ELog e) w).
Proof.
  unfold exec, chat_catch, bind, modify. rewrite appendMessage_string.
  rewrite formatText_error_text. reflexivity.
Qed.

Lemma submit_spec (w : Widget) :
  step w SubmitForm =
  let text := trim (input_value w) in
  if is_empty text then w
  else
    let shown :=
      set_input_value []
        (append_child {| origin := user; innerHTML := formatText text |} w) in
    match csrf_meta w with
    | Some csrf =>
        set_pending (pending w ++ [ChatFetch])
          (emit (EFetch (chat_request csrf text)) shown)
    | None => append_child error_message (emit (ELog TypeError) shown)
    end.
Proof.
  destruct w as [o r i ms meta p eff]. run_handler.
  destruct (is_empty (trim i)); [reflexivity|].
  destruct meta as [csrf|]; simpl; [reflexivity|].
  rewrite formatText_error_text. reflexivity.
Qed.

Lemma fetch_settles_chat (w : Widget) (n : nat) (ok : bool) :
  nth_error (pending w) n = Some ChatFetch ->
  step w (FetchSettles n ok) =
  if ok then set_pending (remove_nth n (pending w) ++ [ChatJson]) w
  else append_child error_message (emit (ELog Rejection) (take_task n w)).
Proof.
  intros Hn. unfold step. rewrite Hn.
  destruct ok.
  - destruct w; reflexivity.
  - rewrite <- chat_catch_spec. reflexivity.
Qed.

Lemma fetch_settles_reindex (w : Widget) (n : nat) (ok : bool) :
  nth_error (pending w) n = Some ReindexFetch ->
  step w (FetchSettles n ok) =
  if ok then take_task n w else emit (EWarn Rejection) (take_task n w).
Proof.
  intros Hn. unfold step. rewrite Hn. destruct ok; reflexivity.
Qed.

Lemma json_settles_chat (w : Widget) (n : nat) (r : option json) :
  nth_error (pending w) n = Some ChatJson ->
  step w (JsonSettles n r) =
  let w0 := take_task n w in
  match r with
  | None => append_child error_message (emit (ELog Rejection) w0)
  | Some data =>
      match get_answer data with
      | Throw e => append_child error_message (emit (ELog e) w0)
      | Ok answer =>
          match formatText_of
                  (or_else answer (str (js "Sorry, I had trouble answering.")))
          with
          | Ok html => append_child {| origin := bot; innerHTML := html |} w0
          | Throw e => append_child error_message (emit (ELog e) w0)
          end
      end
  end.
Proof.
  intros Hn. unfold step. rewrite Hn. cbv zeta.
  destruct r as [data|]; [|rewrite <- chat_catch_spec; reflexivity].
  destruct (get_answer data) as [answer|e] eqn:Ha.
  - destruct (formatText_of _) as [html|e] eqn:Hf.
    + unfold exec, submit_resume_json, try_catch, bind, lift, appendMessage.
      rewrite Ha, Hf. reflexivity.
    + rewrite <- chat_catch_spec.
      unfold exec at 1. unfold submit_resume_json, try_catch, bind, lift, appendMessage.
      rewrite Ha, Hf. reflexivity.
  - rewrite <- chat_catch_spec.
    unfold exec at 1. unfold submit_resume_json, try_catch, bind, lift.
    rewrite Ha. reflexivity.
Qed.

(* ===================================================================== *)
(** ** Reindexing happens once *)
(* ===================================================================== *)

(** Every event other than an opening toggle with the flag down leaves the
    number of reindex calls, and the flag, as they were. *)
Lemma step_keeps_reindex (w : Widget) (ev : Event) :
  ~ (ev = ClickToggle /\ open w = false /\ reindexed w = false) ->
  reindex_calls (step w ev) = reindex_calls w /\
  reindexed (step w ev) = reindexed w /\
  (open (step w ev) = true -> ev = ClickToggle /\ open w = false \/ open w = true).
Proof.
  intros Hnot. destruct ev.
  - rewrite toggle_click_spec.
    destruct (open w) eqn:Ho, (reindexed w) eqn:Hr; simpl;
      try (exfalso; apply Hnot; auto; fail);
      repeat split; auto; unfold set_open; simpl; intros; auto; discriminate.
  - rewrite close_click_spec. repeat split; auto. simpl. discriminate.
  - rewrite submit_spec. cbv zeta.
    destruct (is_empty _); [repeat split; auto|].
    destruct (csrf_meta w).
    + repeat split; auto.
      unfold set_pending, reindex_calls; simpl.
      rewrite !filter_app, !length_app; simpl. lia.
    + repeat split; auto.
      unfold reindex_calls; simpl.
      rewrite !filter_app, !length_app; simpl. lia.
  - repeat split; auto.
  - repeat split; auto.
  - destruct (nth_error (pending w) n) as [[| |]|] eqn:Hn;
      try (unfold step; rewrite Hn; repeat split; auto; fail).
    + rewrite fetch_settles_reindex by exact Hn.
      destruct ok; repeat split; auto.
      unfold reindex_calls; simpl. rewrite filter_app, length_app; simpl. lia.
    + rewrite fetch_settles_chat by exact Hn.
      destruct ok; repeat split; auto.
      unfold reindex_calls; simpl. rewrite !filter_app, !length_app; simpl. lia.
  - destruct (nth_error (pending w) n) as [[| |]|] eqn:Hn;
      try (unfold step; rewrite Hn; repeat split; auto; fail).
    rewrite json_settles_chat by exact Hn.
    cbv zeta.
    assert (Hc : forall e,
      reindex_calls (append_child error_message (emit (ELog e) (take_task n w)))
      = reindex_calls w).
    { intros e. unfold reindex_calls; simpl.
      rewrite !filter_app, !length_app; simpl. lia. }
    destruct r as [data|]; [|repeat split; auto].
    destruct (get_answer data) as [answer|e]; [|repeat split; auto].
    destruct (formatText_of _) as [html|e]; [|repeat split; auto].
    repeat split; auto.
    unfold reindex_calls; simpl. rewrite !filter_app, !length_app; simpl. lia.
Qed.

Lemma step_first_opening (w : Widget) :
  open w = false -> reindexed w = false ->
  reindex_calls (step w ClickToggle) = S (reindex_calls w) /\
  reindexed (step w ClickToggle) = true.
Proof.
  intros Ho Hr. rewrite toggle_click_spec, Ho, Hr. simpl. split; [|reflexivity].
  unfold reindex_calls; simpl. rewrite filter_app, length_app; simpl. lia.
Qed.

Lemma flag_counts_init (meta : option (option jsstring)) : flag_counts (init meta).
Proof. split; [reflexivity | discriminate]. Qed.

Lemma flag_counts_step (w : Widget) (ev : Event) :
  flag_counts w -> flag_counts (step w ev).
Proof.
  intros [Hc Ho].
  assert (Hother : ev <> ClickToggle -> flag_counts (step w ev)).
  { intros Hev.
    destruct (step_keeps_reindex w ev) as (Hc' & Hr' & Ho').
    { intros [H _]. exact (Hev H). }
    split; [rewrite Hc', Hr'; exact Hc|].
    intros H. rewrite Hr'. apply Ho.
    destruct (Ho' H) as [[H1 _]|H']; [exact (False_ind _ (Hev H1))|exact H']. }
  destruct ev as [| | | | | |]; try (apply Hother; discriminate).
  clear Hother.
  destruct (open w) eqn:Eo.
  - (* closing toggle *)
    destruct (step_keeps_reindex w ClickToggle) as (Hc' & Hr' & _).
    { intros (_ & H & _). rewrite Eo in H. discriminate. }
    split; [rewrite Hc', Hr'; exact Hc|intros _; rewrite Hr'; auto].
  - destruct (reindexed w) eqn:Er.
    + destruct (step_keeps_reindex w ClickToggle) as (Hc' & Hr' & _).
      { intros (_ & _ & H). rewrite Er in H. discriminate. }
      split; [rewrite Hc', Hr', Er; exact Hc|intros _; rewrite Hr'; exact Er].
    + destruct (step_first_opening w Eo Er) as [Hc' Hr'].
      split; [rewrite Hc', Hr', Hc; reflexivity|intros _; exact Hr'].
Qed.

Lemma flag_counts_run (meta : option (option jsstring)) (evs : list Event) :
  flag_counts (run (init meta) evs).
Proof.
  induction evs as [|ev evs IH] using rev_ind.
  - apply flag_counts_init.
  - rewrite run_snoc. apply flag_counts_step, IH.
Qed.

Lemma reindexed_step_false (w : Widget) (ev : Event) :
  flag_counts w ->
  reindexed (step w ev) = false ->
  reindexed w = false /\ ~ opens w ev.
Proof.
  intros [_ Ho] Hf.
  destruct (reindexed w) eqn:Er.
  - destruct (step_keeps_reindex w ev) as (_ & Hr' & _).
    { intros (_ & _ & H). congruence. }
    congruence.
  - split; [reflexivity|]. intros [Hev Hop]. subst ev.
    destruct (step_first_opening w Hop Er) as [_ Hr'].
    rewrite Hr' in Hf. discriminate.
Qed.

(** While the flag is down the panel has never been opened. *)
Lemma never_opened (meta : option (option jsstring)) (pre : list Event) :
  reindexed (run (init meta) pre) = false ->
  forall p1 e1 p2, pre = p1 ++ e1 :: p2 -> ~ opens (run (init meta) p1) e1.
Proof.
  induction pre as [|ev pre IH] using rev_ind; intros Hf p1 e1 p2 Heq.
  - destruct p1; discriminate.
  - rewrite run_snoc in Hf.
    destruct (reindexed_step_false _ _ (flag_counts_run meta pre) Hf) as [Hr Hno].
    destruct p2 as [|x p2' _] using rev_ind.
    + apply app_inj_tail in Heq. destruct Heq as [-> ->]. exact Hno.
    + change (p1 ++ e1 :: p2' ++ [x]) with (p1 ++ (e1 :: p2') ++ [x]) in Heq.
      rewrite app_assoc in Heq. apply app_inj_tail in Heq.
      destruct Heq as [Hpre _]. eapply IH; eauto.
Qed.

(** C1. Across one page lifetime the reindex request is issued at most
    once: after any sequence of events the widget has called the reindex
    endpoint at most one time; an event that makes the call is a
    closed-to-open transition of the panel and no such transition came
    before it; opening, closing, opening, closing and opening again makes
    exactly one call. *)
Theorem reindex_at_most_once :
  forall (meta : option (option jsstring)) (evs : list Event),
    (reindex_calls (run (init meta) evs) <= 1)%nat /\
    (forall pre ev post,
        evs = pre ++ ev :: post ->
        invokes_reindex (run (init meta) pre) ev ->
        opens (run (init meta) pre) ev /\
        forall p1 e1 p2,
          pre = p1 ++ e1 :: p2 -> ~ opens (run (init meta) p1) e1) /\
    reindex_calls
      (run (init meta)
         [ClickToggle; ClickClose; ClickToggle; ClickClose; ClickToggle]) = 1%nat.
Proof.
  intros meta evs. split; [|split].
  - destruct (flag_counts_run meta evs) as [Hc _]. rewrite Hc.
    destruct (reindexed _); lia.
  - intros pre ev post _ Hinv.
    set (w := run (init meta) pre) in *.
    assert (Hfirst : ev = ClickToggle /\ open w = false /\ reindexed w = false).
    { destruct (open w) eqn:Eo, (reindexed w) eqn:Er, ev;
        try (split; [reflexivity|split; reflexivity]);
        exfalso; apply Hinv;
        apply step_keeps_reindex;
        intros (H1 & H2 & H3); congruence. }
    destruct Hfirst as (Hev & Ho & Hr).
    split; [split; assumption|].
    apply never_opened. exact Hr.
  - destruct meta as [[c|]|]; reflexivity.
Qed.

(** Witness for C1: the second opening of the panel makes no call. *)
Lemma reindex_at_most_once_witness :
  (reindex_calls
     (run (init None) [ClickToggle; ClickClose; ClickToggle]) <= 1)%nat /\
  ~ invokes_reindex (run (init None) [ClickToggle; ClickClose]) ClickToggle.
Proof.
  split.
  - apply (reindex_at_most_once None [ClickToggle; ClickClose; ClickToggle]).
  - intros Hinv.
    destruct (reindex_at_most_once None [ClickToggle; ClickClose; ClickToggle])
      as (_ & Hfirst & _).
    destruct (Hfirst [ClickToggle; ClickClose] ClickToggle [] eq_refl Hinv)
      as [_ Hnone].
    apply (Hnone [] ClickToggle [ClickClose] eq_refl).
    split; reflexivity.
Defined.

(* ===================================================================== *)
(** ** formatText on list text *)
(* ===================================================================== *)

(** C4. [formatText] applied to the two lines [* a] and [* b] yields one
    list container around exactly the two items [a] and [b]. *)
Theorem formatText_two_items :
  formatText (js "* a" ++ [LF] ++ js "* b") = js "<ul><li>a</li><li>b</li></ul>".
Proof. vm_compute. reflexivity. Qed.

(** C2. Two list-item lines separated by one blank line (a run of two
    newlines): the list-item expression takes the second newline, the
    remaining single newline is no boundary, and the result is one list
    that holds both items; the boundary markup does not occur in it. *)
Theorem formatText_blank_line_one_list :
  formatText (js "* a" ++ [LF; LF] ++ js "* b") =
    js "<ul><li>a</li>" ++ [LF] ++ js "<li>b</li></ul>" /\
  includes (js "</ul><br><ul>")
    (formatText (js "* a" ++ [LF; LF] ++ js "* b")) = false.
Proof. split; vm_compute; reflexivity. Qed.

(* ===================================================================== *)
(** ** Submitting *)
(* ===================================================================== *)

Lemma trim_start_whitespace (s : jsstring) :
  forallb is_whitespace s = true -> trim_start s = [].
Proof.
  induction s as [|c t IH]; simpl; [reflexivity|].
  intros H. apply andb_true_iff in H. destruct H as [Hc Ht].
  rewrite Hc. apply IH, Ht.
Qed.

Lemma trim_whitespace (s : jsstring) :
  forallb is_whitespace s = true -> trim s = [].
Proof.
  intros H. unfold trim. rewrite trim_start_whitespace by exact H. reflexivity.
Qed.

Lemma is_empty_false (s : jsstring) : s <> [] -> is_empty s = false.
Proof. destruct s; [congruence|reflexivity]. Qed.

(** C5. When the input holds only whitespace (or nothing), submitting
    changes nothing: no message is appended, no request is sent. *)
Theorem submit_whitespace_noop :
  forall w : Widget,
    forallb is_whitespace (input_value w) = true ->
    step w SubmitForm = w.
Proof.
  intros w Hws. rewrite submit_spec. cbv zeta.
  rewrite (trim_whitespace _ Hws). reflexivity.
Qed.

(** Witness for C5: an input of a space, a tab, a no-break space and a
    newline, with one request already pending. *)
Lemma submit_whitespace_noop_witness :
  step (set_pending [ChatFetch] (set_input_value [32; 9; 160; 10] (init None)))
    SubmitForm
  = set_pending [ChatFetch] (set_input_value [32; 9; 160; 10] (init None)).
Proof.
  apply (submit_whitespace_noop
           (set_pending [ChatFetch]
              (set_input_value [32; 9; 160; 10] (init None)))).
  reflexivity.
Defined.

Lemma filter_from_user_snoc_bot (l : list Message) (m : Message) :
  origin m = bot -> filter from_user (l ++ [m]) = filter from_user l.
Proof.
  intros Hm. rewrite filter_app. simpl. unfold from_user. rewrite Hm.
  apply app_nil_r.
Qed.

(** Only the submit handler appends messages of the user. *)
Lemma user_messages_other_events (w : Widget) (ev : Event) :
  ev <> SubmitForm ->
  filter from_user (messages (step w ev)) = filter from_user (messages w).
Proof.
  intros Hev. destruct ev; try congruence; try reflexivity.
  - rewrite toggle_click_spec.
    destruct (negb (open w) && negb (reindexed w)); reflexivity.
  - destruct (nth_error (pending w) n) as [[| |]|] eqn:Hn;
      try (unfold step; rewrite Hn; reflexivity).
    + rewrite fetch_settles_reindex by exact Hn. destruct ok; reflexivity.
    + rewrite fetch_settles_chat by exact Hn. destruct ok; [reflexivity|].
      simpl. apply filter_from_user_snoc_bot. reflexivity.
  - destruct (nth_error (pending w) n) as [[| |]|] eqn:Hn;
      try (unfold step; rewrite Hn; reflexivity).
    rewrite json_settles_chat by exact Hn. cbv zeta.
    destruct r as [data|];
      [|simpl; apply filter_from_user_snoc_bot; reflexivity].
    destruct (get_answer data) as [answer|e];
      [|simpl; apply filter_from_user_snoc_bot; reflexivity].
    destruct (formatText_of _) as [html|e];
      simpl; apply filter_from_user_snoc_bot; reflexivity.
Qed.

(** C6. Submitting a text that is not empty after trimming appends exactly
    one message of the user.  It is the first thing the handler does: the
    chat request is made after it and is still pending when the handler
    suspends (or, on a page without the token meta tag, is never made and
    the error message of the bot follows); no later event, in particular
    no settling request, appends a message of the user. *)
Theorem submit_appends_user_message_first :
  forall w : Widget,
    trim (input_value w) <> [] ->
    let text := trim (input_value w) in
    let shown := {| origin := user; innerHTML := formatText text |} in
    let w' := step w SubmitForm in
    (exists later,
        messages w' = messages w ++ shown :: later /\
        filter from_user later = []) /\
    (exists after,
        effects w' = effects w ++ EAppend shown :: after /\
        ((exists csrf,
             csrf_meta w = Some csrf /\
             after = [EFetch (chat_request csrf text)] /\
             pending w' = pending w ++ [ChatFetch]) \/
         (csrf_meta w = None /\
          after = [ELog TypeError; EAppend error_message] /\
          pending w' = pending w))) /\
    (forall w0 ev,
        ev <> SubmitForm ->
        filter from_user (messages (step w0 ev)) =
        filter from_user (messages w0)).
Proof.
  intros w Hne text shown w'.
  assert (Hw' : w' = step w SubmitForm) by reflexivity.
  rewrite submit_spec in Hw'. cbv zeta in Hw'.
  rewrite (is_empty_false _ Hne) in Hw'. fold text in Hw'. fold shown in Hw'.
  split; [|split].
  - destruct (csrf_meta w) as [csrf|]; rewrite Hw'; simpl.
    + exists []. split; reflexivity.
    + exists [error_message]. split; [|reflexivity].
      rewrite <- app_assoc. reflexivity.
  - destruct (csrf_meta w) as [csrf|] eqn:Hm; rewrite Hw'; simpl.
    + exists [EFetch (chat_request csrf text)].
      split; [rewrite <- app_assoc; reflexivity|].
      left. exists csrf. repeat split.
    + exists [ELog TypeError; EAppend error_message].
      split; [rewrite <- !app_assoc; reflexivity|].
      right. repeat split.
  - apply user_messages_other_events.
Qed.

(** Witness for C6: the text [hi] typed with surrounding spaces. *)
Lemma submit_appends_user_message_first_witness :
  exists later,
    messages (step (set_input_value (js " hi ") (init (Some (Some (js "tok")))))
                SubmitForm)
    = {| origin := user; innerHTML := js "hi" |} :: later /\
    filter from_user later = [].
Proof.
  destruct (submit_appends_user_message_first
              (set_input_value (js " hi ") (init (Some (Some (js "tok"))))))
    as [H _].
  - vm_compute. discriminate.
  - exact H.
Defined.

(* ===================================================================== *)
(** ** Rendering the reply *)
(* ===================================================================== *)

(** C7 (amended). When the parsed response is not [null] and has no
    [answer] field, the message of the bot rendered for the exchange is
    the literal fallback text [Sorry, I had trouble answering.]. *)
Theorem missing_answer_renders_fallback :
  forall (w : Widget) (n : nat) (data : json),
    nth_error (pending w) n = Some ChatJson ->
    data <> JNull ->
    has_answer_field data = false ->
    messages (step w (JsonSettles n (Some data))) =
      messages w ++
      [{| origin := bot; innerHTML := js "Sorry, I had trouble answering." |}] /\
    effects (step w (JsonSettles n (Some data))) =
      effects w ++
      [EAppend
         {| origin := bot; innerHTML := js "Sorry, I had trouble answering." |}].
Proof.
  intros w n data Hn Hnull Hfield.
  assert (Ha : get_answer data = Ok VUndefined).
  { destruct data as [| | | | |props]; try reflexivity; [congruence|].
    unfold has_answer_field in Hfield. unfold get_answer.
    destruct (own_property (js "answer") props); [discriminate|reflexivity]. }
  rewrite json_settles_chat by exact Hn. cbv zeta. rewrite Ha.
  unfold or_else, formatText_of; simpl.
  rewrite formatText_sorry_text. split; reflexivity.
Qed.

(** Witness for C7: the response is an object with another field only. *)
Lemma missing_answer_renders_fallback_witness :
  messages
    (step (set_pending [ChatJson] (init None))
       (JsonSettles 0 (Some (JObj [(js "status", JStr (js "ok"))])))) =
  [{| origin := bot; innerHTML := js "Sorry, I had trouble answering." |}].
Proof.
  apply (missing_answer_renders_fallback
           (set_pending [ChatJson] (init None)) 0
           (JObj [(js "status", JStr (js "ok"))]));
    first [reflexivity | discriminate].
Defined.

(** Counterexample to C7 as stated: the body [null] is a JSON response
    without an [answer] field, yet reading [data.answer] throws and the
    message rendered is the error text, not the fallback text. *)
Lemma null_body_renders_error_text :
  has_answer_field JNull = false /\
  messages
    (step (set_pending [ChatJson] (init None)) (JsonSettles 0 (Some JNull))) =
  [{| origin := bot; innerHTML := js "Error contacting assistant." |}] /\
  messages
    (step (set_pending [ChatJson] (init None)) (JsonSettles 0 (Some JNull))) <>
  [{| origin := bot; innerHTML := js "Sorry, I had trouble answering." |}].
Proof.
  split; [reflexivity|]. split; [reflexivity|].
  vm_compute. discriminate.
Qed.

(** C9. When the parsed response has an [answer] whose value is falsy
    (the empty string, [null], [false], zero), the message of the bot is
    the same fallback text, not the value. *)
Theorem falsy_answer_renders_fallback :
  forall (w : Widget) (n : nat) (data : json) (answer : jsval),
    nth_error (pending w) n = Some ChatJson ->
    get_answer data = Ok answer ->
    truthy answer = false ->
    messages (step w (JsonSettles n (Some data))) = messages w ++ [sorry_message].
Proof.
  intros w n data answer Hn Ha Hf.
  rewrite json_settles_chat by exact Hn. cbv zeta. rewrite Ha.
  unfold or_else. rewrite Hf. unfold formatText_of; simpl.
  rewrite formatText_sorry_text. reflexivity.
Qed.

(** Witness for C9: the answer field is present and holds the empty string. *)
Lemma falsy_answer_renders_fallback_witness :
  messages
    (step (set_pending [ChatJson] (init None))
       (JsonSettles 0 (Some (JObj [(js "answer", JStr [])])))) =
  [sorry_message].
Proof.
  apply (falsy_answer_renders_fallback
           (set_pending [ChatJson] (init None)) 0
           (JObj [(js "answer", JStr [])]) (str [])); reflexivity.
Defined.

Lemma fetches_append_child (m : Message) (w : Widget) :
  fetches (append_child m w) = fetches w.
Proof.
  unfold fetches, append_child; simpl. rewrite filter_app; simpl.
  apply app_nil_r.
Qed.

Lemma fetches_emit_log (e : error) (w : Widget) :
  fetches (emit (ELog e) w) = fetches w.
Proof.
  unfold fetches, emit; simpl. rewrite filter_app; simpl. apply app_nil_r.
Qed.

Lemma formatText_of_not_string (v : jsval) :
  (forall s, v <> str s) -> formatText_of v = Throw TypeError.
Proof.
  intros Hv. destruct v as [|[]]; try reflexivity.
  exfalso; eapply Hv; reflexivity.
Qed.

Lemma snoc_differs {A : Type} (l : list A) (x : A) : l ++ [x] <> l.
Proof.
  intros H. apply (f_equal (@List.length A)) in H.
  rewrite length_app in H. simpl in H. lia.
Qed.

Lemma logs_error_appended (e : error) (w0 w : Widget) :
  effects w0 = effects w ->
  filter is_log (effects (append_child error_message (emit (ELog e) w0))) <>
  filter is_log (effects w).
Proof.
  intros He. simpl. rewrite He, !filter_app. simpl. rewrite app_nil_r.
  apply snoc_differs.
Qed.

(** The failures listed by [chat_failure] are exactly the executions that
    reach the [catch] clause of the submit handler. *)
Lemma catch_ran_iff_chat_failure (w : Widget) (ev : Event) :
  catch_ran w ev <-> chat_failure w ev.
Proof.
  unfold catch_ran. split.
  - intros Hlog. destruct ev.
    + exfalso. apply Hlog. rewrite toggle_click_spec.
      destruct (negb (open w) && negb (reindexed w)); [|reflexivity].
      simpl. rewrite filter_app. simpl. apply app_nil_r.
    + exfalso. apply Hlog. reflexivity.
    + rewrite submit_spec in Hlog. cbv zeta in Hlog.
      destruct (is_empty (trim (input_value w))) eqn:He;
        [exfalso; apply Hlog; reflexivity|].
      destruct (csrf_meta w) eqn:Hm.
      * exfalso. apply Hlog. simpl. rewrite !filter_app. simpl.
        rewrite !app_nil_r. reflexivity.
      * apply fail_no_meta; [exact Hm|].
        intros Ht. rewrite Ht in He. discriminate.
    + exfalso. apply Hlog. reflexivity.
    + exfalso. apply Hlog. reflexivity.
    + destruct (nth_error (pending w) n) as [[| |]|] eqn:Hn;
        try (exfalso; apply Hlog; unfold step; rewrite Hn; reflexivity).
      * exfalso. apply Hlog. rewrite fetch_settles_reindex by exact Hn.
        destruct ok; [reflexivity|].
        simpl. rewrite filter_app. simpl. apply app_nil_r.
      * destruct ok; [|apply fail_network; exact Hn].
        exfalso. apply Hlog. rewrite fetch_settles_chat by exact Hn.
        reflexivity.
    + destruct (nth_error (pending w) n) as [[| |]|] eqn:Hn;
        try (exfalso; apply Hlog; unfold step; rewrite Hn; reflexivity).
      destruct r as [data|]; [|apply fail_not_json; exact Hn].
      destruct (get_answer data) as [answer|e] eqn:Ha;
        [|eapply fail_read_answer; eauto].
      destruct (truthy answer) eqn:Ht.
      * destruct answer as [|[| | |s| |]];
          try (eapply fail_format_answer; eauto; intros s0; discriminate).
        exfalso. apply Hlog. rewrite json_settles_chat by exact Hn.
        cbv zeta. rewrite Ha. unfold or_else. rewrite Ht.
        simpl. rewrite filter_app. simpl. apply app_nil_r.
      * exfalso. apply Hlog. rewrite json_settles_chat by exact Hn.
        cbv zeta. rewrite Ha. unfold or_else. rewrite Ht.
        simpl. rewrite filter_app. simpl. apply app_nil_r.
  - intros Hfail.
    destruct Hfail as [n Hn|n Hn|n data e Hn Ha|n data answer Hn Ha Ht Hs|Hm Hne].
    + rewrite fetch_settles_chat by exact Hn. apply logs_error_appended.
      reflexivity.
    + rewrite json_settles_chat by exact Hn. apply logs_error_appended.
      reflexivity.
    + rewrite json_settles_chat by exact Hn. cbv zeta. rewrite Ha.
      apply logs_error_appended. reflexivity.
    + rewrite json_settles_chat by exact Hn. cbv zeta. rewrite Ha.
      unfold or_else. rewrite Ht. rewrite (formatText_of_not_string _ Hs).
      apply logs_error_appended. reflexivity.
    + rewrite submit_spec. cbv zeta. rewrite (is_empty_false _ Hne), Hm.
      simpl. rewrite !filter_app. simpl. rewrite !app_nil_r.
      apply snoc_differs.
Qed.

(** C8. When the chat exchange fails, exactly one message of the bot is
    rendered, its text is the literal error text, it is the last message,
    and nothing is retried: the handler makes no further request and
    leaves no new await behind. *)
Theorem chat_failure_renders_error_once :
  forall (w : Widget) (ev : Event),
    chat_failure w ev ->
    (exists before,
        messages (step w ev) = messages w ++ before ++ [error_message] /\
        filter from_bot before = []) /\
    innerHTML error_message = js "Error contacting assistant." /\
    fetches (step w ev) = fetches w /\
    (pending (step w ev) = pending w \/
     exists n, pending (step w ev) = remove_nth n (pending w)).
Proof.
  intros w ev Hfail.
  assert (Hsettled : forall n e,
    let w' := append_child error_message (emit (ELog e) (take_task n w)) in
    (exists before,
        messages w' = messages w ++ before ++ [error_message] /\
        filter from_bot before = []) /\
    innerHTML error_message = js "Error contacting assistant." /\
    fetches w' = fetches w /\
    (pending w' = pending w \/ exists k, pending w' = remove_nth k (pending w))).
  { intros n e w'. subst w'. repeat split.
    - exists []. split; reflexivity.
    - rewrite fetches_append_child, fetches_emit_log. reflexivity.
    - right. exists n. reflexivity. }
  destruct Hfail as [n Hn|n Hn|n data e Hn Ha|n data answer Hn Ha Ht Hs|Hm Hne].
  - rewrite fetch_settles_chat by exact Hn. apply Hsettled.
  - rewrite json_settles_chat by exact Hn. apply Hsettled.
  - rewrite json_settles_chat by exact Hn. cbv zeta. rewrite Ha. apply Hsettled.
  - rewrite json_settles_chat by exact Hn. cbv zeta. rewrite Ha.
    unfold or_else. rewrite Ht. rewrite (formatText_of_not_string _ Hs).
    apply Hsettled.
  - rewrite submit_spec. cbv zeta. rewrite (is_empty_false _ Hne), Hm.
    repeat split.
    + exists [{| origin := user;
                 innerHTML := formatText (trim (input_value w)) |}].
      split; [|reflexivity]. simpl. rewrite <- app_assoc. reflexivity.
    + rewrite fetches_append_child, fetches_emit_log.
      unfold fetches; simpl. rewrite filter_app; simpl. apply app_nil_r.
    + left. reflexivity.
Qed.

(** Witness for C8: the chat request is rejected by the network. *)
Lemma chat_failure_renders_error_once_witness :
  exists before,
    messages (step (set_pending [ChatFetch] (init None)) (FetchSettles 0 false))
    = messages (set_pending [ChatFetch] (init None)) ++ before ++ [error_message] /\
    filter from_bot before = [].
Proof.
  destruct (chat_failure_renders_error_once
              (set_pending [ChatFetch] (init None)) (FetchSettles 0 false))
    as [H _].
  - apply fail_network. reflexivity.
  - exact H.
Defined.

(* ===================================================================== *)
(** ** The CSRF token *)
(* ===================================================================== *)

(** The reindex request reads the meta tag when it is made and sends the
    empty string when the page has no such tag. *)
Lemma reindex_token_read_fresh (w : Widget) :
  open w = false -> reindexed w = false ->
  effects (step w ClickToggle) =
  effects w ++
  [EFetch (reindex_request
             (match csrf_meta w with
              | Some content => content
              | None => Some []
              end))].
Proof.
  intros Ho Hr. rewrite toggle_click_spec, Ho, Hr. reflexivity.
Qed.

(** The chat request reads the meta tag when it is made. *)
Lemma chat_token_read_fresh (w : Widget) (content : option jsstring) :
  csrf_meta w = Some content ->
  trim (input_value w) <> [] ->
  fetches (step w SubmitForm) =
  fetches w ++ [EFetch (chat_request content (trim (input_value w)))].
Proof.
  intros Hm Hne. rewrite submit_spec. cbv zeta.
  rewrite (is_empty_false _ Hne), Hm.
  unfold fetches; simpl. rewrite !filter_app; simpl.
  rewrite app_nil_r. reflexivity.
Qed.

(** C3. On a page without the token meta tag the submit handler sends no
    chat request at all: reading the attribute of the missing tag throws,
    and the handler renders the error message instead.  (The reindex
    request, which goes through [getCsrf], is sent with an empty token.) *)
Theorem chat_without_meta_sends_nothing :
  forall w : Widget,
    csrf_meta w = None ->
    trim (input_value w) <> [] ->
    fetches (step w SubmitForm) = fetches w /\
    pending (step w SubmitForm) = pending w /\
    messages (step w SubmitForm) =
      messages w ++
      [{| origin := user; innerHTML := formatText (trim (input_value w)) |};
       error_message].
Proof.
  intros w Hm Hne. rewrite submit_spec. cbv zeta.
  rewrite (is_empty_false _ Hne), Hm. repeat split.
  - rewrite fetches_append_child, fetches_emit_log.
    unfold fetches; simpl. rewrite filter_app; simpl. apply app_nil_r.
  - simpl. rewrite <- app_assoc. reflexivity.
Qed.

(** Witness for C3: [hi] submitted on a fresh page without the meta tag,
    next to the reindex request of the same page. *)
Lemma chat_without_meta_sends_nothing_witness :
  fetches (step (set_input_value (js "hi") (init None)) SubmitForm) = [] /\
  fetches (step (init None) ClickToggle) = [EFetch (reindex_request (Some []))].
Proof.
  split.
  - apply (chat_without_meta_sends_nothing (set_input_value (js "hi") (init None))).
    + reflexivity.
    + vm_compute. discriminate.
  - reflexivity.
Defined.

(* ===================================================================== *)
(** ** Every replacement adds markup *)
(* ===================================================================== *)

Lemma count_lt_app (a b : jsstring) :
  count_lt (a ++ b) = (count_lt a + count_lt b)%nat.
Proof. unfold count_lt. rewrite filter_app, length_app. reflexivity. Qed.

Lemma replace_from_skip (m : matcher) (k : nat) (s : jsstring) :
  replace_from m k s = replace_from m 0 (skipn k s).
Proof.
  revert k. induction s as [|c t IH]; intros k.
  - destruct k; reflexivity.
  - destruct k as [|k]; [reflexivity|]. simpl. apply IH.
Qed.

Lemma replace_all_no_match (m : matcher) (c : code_unit) (t : jsstring) :
  m (c :: t) = None ->
  replace_all m (c :: t) = c :: replace_all m t.
Proof. intros H. unfold replace_all. simpl. rewrite H. reflexivity. Qed.

Lemma replace_all_match (m : matcher) (matched rest rep : jsstring) :
  matched <> [] ->
  m (matched ++ rest) = Some (rep, List.length matched) ->
  replace_all m (matched ++ rest) = rep ++ replace_all m rest.
Proof.
  intros Hne H. destruct matched as [|c matched']; [congruence|].
  unfold replace_all. simpl in *. rewrite H. cbn [Nat.pred].
  rewrite replace_from_skip.
  rewrite skipn_app, skipn_all, Nat.sub_diag. reflexivity.
Qed.

Section Markup.

Variable m : matcher.
Hypothesis Hm : adds_markup m.

Lemma replace_all_fires (s rep : jsstring) (len : nat) :
  m s = Some (rep, len) ->
  exists matched rest,
    s = matched ++ rest /\
    (List.length rest < List.length s)%nat /\
    (count_lt matched < count_lt rep)%nat /\
    replace_all m s = rep ++ replace_all m rest.
Proof.
  intros H. destruct (Hm _ _ _ H) as (matched & rest & Hs & Hlen & Hpos & Hc).
  exists matched, rest. subst s len. repeat split.
  - rewrite length_app. lia.
  - exact Hc.
  - apply replace_all_match; [|exact H].
    destruct matched; [simpl in Hpos; lia|discriminate].
Qed.

(** A global replacement never lowers the number of [<]; it leaves the
    text as it is or raises the number. *)
Lemma replace_all_markup_bounded (n : nat) :
  forall s, (List.length s <= n)%nat ->
    (count_lt s <= count_lt (replace_all m s))%nat /\
    (replace_all m s = s \/ (count_lt s < count_lt (replace_all m s))%nat).
Proof.
  induction n as [|n IH]; intros s Hlen.
  - destruct s; [|simpl in Hlen; lia]. split; [reflexivity|left; reflexivity].
  - destruct s as [|c t]; [split; [reflexivity|left; reflexivity]|].
    destruct (m (c :: t)) as [[rep len]|] eqn:Hmatch.
    + destruct (replace_all_fires _ _ _ Hmatch)
        as (matched & rest & Hs & Hshort & Hc & Hr).
      rewrite Hr, Hs, !count_lt_app.
      destruct (IH rest) as [Hle _]; [simpl in Hshort, Hlen; lia|].
      split; [lia|right; lia].
    + rewrite (replace_all_no_match _ _ _ Hmatch).
      destruct (IH t) as [Hle Hcase]; [simpl in Hlen; lia|].
      change (c :: t) with ([c] ++ t).
      change (c :: replace_all m t) with ([c] ++ replace_all m t).
      rewrite !count_lt_app. split; [lia|].
      destruct Hcase as [Heq|Hlt]; [left; rewrite Heq; reflexivity|right; lia].
Qed.

Lemma replace_all_markup_le (s : jsstring) :
  (count_lt s <= count_lt (replace_all m s))%nat.
Proof. apply (replace_all_markup_bounded (List.length s)). lia. Qed.

Lemma replace_all_same_or_more (s : jsstring) :
  replace_all m s = s \/ (count_lt s < count_lt (replace_all m s))%nat.
Proof. apply (replace_all_markup_bounded (List.length s)). lia. Qed.

(** When the expression matches somewhere in the text, the replacement
    raises the number of [<]. *)
Lemma replace_all_markup_lt (pre post : jsstring) :
  m post <> None ->
  (count_lt (pre ++ post) < count_lt (replace_all m (pre ++ post)))%nat.
Proof.
  intros Hpost. induction pre as [|c pre IH].
  - simpl. destruct (m post) as [[rep len]|] eqn:Hmatch; [|congruence].
    destruct (replace_all_fires _ _ _ Hmatch)
      as (matched & rest & Hs & _ & Hc & Hr).
    rewrite Hr, Hs, !count_lt_app.
    pose proof (replace_all_markup_le rest). lia.
  - simpl. destruct (m (c :: pre ++ post)) as [[rep len]|] eqn:Hmatch.
    + destruct (replace_all_fires _ _ _ Hmatch)
        as (matched & rest & Hs & _ & Hc & Hr).
      rewrite Hr, Hs, !count_lt_app.
      pose proof (replace_all_markup_le rest). lia.
    + rewrite (replace_all_no_match _ _ _ Hmatch).
      change (c :: pre ++ post) with ([c] ++ (pre ++ post)).
      change (c :: replace_all m (pre ++ post))
        with ([c] ++ replace_all m (pre ++ post)).
      rewrite !(count_lt_app [c]). lia.
Qed.

End Markup.

Lemma starts_with_split (p s : jsstring) :
  starts_with p s = true -> s = p ++ skipn (List.length p) s.
Proof.
  revert s. induction p as [|x p IH]; intros s H; [reflexivity|].
  destruct s as [|y s]; [discriminate|]. simpl in H.
  apply andb_true_iff in H. destruct H as [Hxy Hp].
  apply N.eqb_eq in Hxy. subst y. simpl. f_equal. apply IH, Hp.
Qed.

Lemma starts_with_app (p rest : jsstring) : starts_with p (p ++ rest) = true.
Proof.
  induction p as [|x p IH]; [reflexivity|].
  simpl. rewrite N.eqb_refl. exact IH.
Qed.

Lemma dot_run_split (t : jsstring) :
  t = dot_run t ++ skipn (List.length (dot_run t)) t.
Proof.
  induction t as [|c t IH]; [reflexivity|]. simpl.
  destruct (is_line_terminator c); [reflexivity|].
  simpl. f_equal. exact IH.
Qed.

Lemma newline_run_split (s : jsstring) :
  s = repeat LF (newline_run s) ++ skipn (newline_run s) s.
Proof.
  induction s as [|c t IH]; [reflexivity|]. simpl.
  destruct (c =? LF) eqn:Hc; [|reflexivity].
  apply N.eqb_eq in Hc. subst c. simpl. f_equal. exact IH.
Qed.

Lemma count_lt_newlines (n : nat) : count_lt (repeat LF n) = 0%nat.
Proof. induction n as [|n IH]; [reflexivity|exact IH]. Qed.

Lemma star_item_split (off : nat) (s rep : jsstring) (len : nat) :
  star_item off s = Some (rep, len) ->
  exists cap rest,
    s = js "* " ++ cap ++ rest /\ cap <> [] /\
    rep = js "<li>" ++ cap ++ js "</li>" /\
    len = (off + 2 + List.length cap)%nat.
Proof.
  unfold star_item. intros H.
  destruct (starts_with (js "* ") s) eqn:Hs; [|discriminate].
  apply starts_with_split in Hs. change (List.length (js "* ")) with 2%nat in Hs.
  pose proof (dot_run_split (skipn 2 s)) as Hd.
  destruct (dot_run (skipn 2 s)) as [|c cap] eqn:Hcap; [discriminate|].
  injection H as <- <-.
  exists (c :: cap), (skipn (List.length (c :: cap)) (skipn 2 s)).
  repeat split; [|discriminate].
  rewrite <- Hd. exact Hs.
Qed.

Lemma match_list_item_adds_markup : adds_markup match_list_item.
Proof.
  intros s rep len H. unfold match_list_item in H.
  assert (Hitem : forall rep len,
    star_item 0 s = Some (rep, len) ->
    exists matched rest,
      s = matched ++ rest /\ List.length matched = len /\ (1 <= len)%nat /\
      (count_lt matched < count_lt rep)%nat).
  { clear. intros rep len H.
    destruct (star_item_split _ _ _ _ H) as (cap & rest & Hs & _ & Hrep & Hlen).
    exists (js "* " ++ cap), rest. subst rep len s.
    rewrite <- app_assoc. split; [reflexivity|split; [|split]].
    - rewrite length_app. reflexivity.
    - lia.
    - rewrite !count_lt_app.
      change (count_lt (js "* ")) with 0%nat.
      change (count_lt (js "<li>")) with 1%nat. lia. }
  destruct s as [|c t]; [discriminate|].
  destruct (c =? LF) eqn:Hc; [|apply Hitem, H].
  destruct (star_item 1 t) as [r|] eqn:Hnl; [|apply Hitem, H].
  injection H as ->. apply N.eqb_eq in Hc. subst c.
  destruct (star_item_split _ _ _ _ Hnl) as (cap & rest & Hs & _ & Hrep & Hlen).
  exists (LF :: js "* " ++ cap), rest. subst rep len t.
  split; [rewrite <- app_comm_cons, <- app_assoc; reflexivity|split; [|split]].
  - cbn [List.length]. rewrite length_app. reflexivity.
  - lia.
  - change (LF :: js "* " ++ cap) with ([LF] ++ js "* " ++ cap).
    rewrite !count_lt_app.
    change (count_lt [LF]) with 0%nat.
    change (count_lt (js "* ")) with 0%nat.
    change (count_lt (js "<li>")) with 1%nat. lia.
Qed.

Lemma match_emphasis_adds_markup : adds_markup match_emphasis.
Proof.
  intros s rep len H. unfold match_emphasis in H.
  destruct (starts_with (js "Answer:") s) eqn:Ha.
  - injection H as <- <-. apply starts_with_split in Ha.
    exists (js "Answer:"), (skipn (List.length (js "Answer:")) s).
    split; [exact Ha|split; [reflexivity|split; [lia|vm_compute; lia]]].
  - destruct (starts_with (js "Response:") s) eqn:Hr; [|discriminate].
    injection H as <- <-. apply starts_with_split in Hr.
    exists (js "Response:"), (skipn (List.length (js "Response:")) s).
    split; [exact Hr|split; [reflexivity|split; [lia|vm_compute; lia]]].
Qed.

Lemma match_list_break_adds_markup : adds_markup match_list_break.
Proof.
  intros s rep len H. unfold match_list_break in H.
  destruct (2 <=? newline_run s)%nat eqn:Hn; [|discriminate].
  injection H as <- <-. apply Nat.leb_le in Hn.
  exists (repeat LF (newline_run s)), (skipn (newline_run s) s).
  split; [|split; [|split]].
  - apply newline_run_split.
  - apply repeat_length.
  - lia.
  - rewrite count_lt_newlines. vm_compute. lia.
Qed.

Lemma includes_split (needle s : jsstring) :
  includes needle s = true ->
  exists pre post, s = pre ++ post /\ starts_with needle post = true.
Proof.
  induction s as [|c t IH]; simpl; intros H.
  - apply orb_true_iff in H. destruct H as [H|H]; [|discriminate].
    exists [], []. split; [reflexivity|exact H].
  - apply orb_true_iff in H. destruct H as [H|H].
    + exists [], (c :: t). split; [reflexivity|exact H].
    + destruct (IH H) as (pre & post & Ht & Hp).
      exists (c :: pre), post. split; [rewrite Ht; reflexivity|exact Hp].
Qed.

(** [formatText] never lowers the number of [<]. *)
Lemma formatText_markup_le (text : jsstring) :
  (count_lt (replace_all match_list_item text) <= count_lt (formatText text))%nat /\
  (count_lt (replace_all match_emphasis (replace_all match_list_item text))
   <= count_lt (formatText text))%nat.
Proof.
  unfold formatText.
  set (s1 := replace_all match_list_item text).
  set (s2 := replace_all match_emphasis s1).
  set (s3 := replace_all match_list_break s2).
  pose proof (replace_all_markup_le _ match_emphasis_adds_markup s1) as H2.
  pose proof (replace_all_markup_le _ match_list_break_adds_markup s2) as H3.
  fold s2 in H2. fold s3 in H3.
  cbv zeta. destruct (includes (js "<li>") s3).
  - rewrite !count_lt_app. lia.
  - lia.
Qed.

(** A text in which [Answer:] or [Response:] occurs is changed. *)
Lemma formatText_emphasis_changes (text : jsstring) :
  includes (js "Answer:") text = true \/ includes (js "Response:") text = true ->
  formatText text <> text.
Proof.
  intros Hin Heq.
  assert (Hlt : (count_lt text < count_lt (formatText text))%nat);
    [|rewrite Heq in Hlt; lia].
  destruct (formatText_markup_le text) as [H1 H2].
  destruct (replace_all_same_or_more _ match_list_item_adds_markup text)
    as [Hsame|Hmore]; [|lia].
  rewrite Hsame in H2.
  assert (Hfire : exists pre post,
    text = pre ++ post /\ match_emphasis post <> None).
  { destruct Hin as [Hin|Hin];
      destruct (includes_split _ _ Hin) as (pre & post & Ht & Hp);
      exists pre, post; (split; [exact Ht|]); unfold match_emphasis.
    - rewrite Hp. discriminate.
    - rewrite Hp. destruct (starts_with (js "Answer:") post); discriminate. }
  destruct Hfire as (pre & post & Ht & Hp).
  pose proof (replace_all_markup_lt _ match_emphasis_adds_markup pre post Hp) as H.
  rewrite <- Ht in H. lia.
Qed.

(** A text that begins with [* ] and a character on the same line is
    rendered as a list. *)
Lemma formatText_item_changes (c : code_unit) (rest : jsstring) :
  is_line_terminator c = false ->
  starts_with (js "<ul><li>") (formatText (js "* " ++ c :: rest)) = true /\
  formatText (js "* " ++ c :: rest) <> js "* " ++ c :: rest.
Proof.
  intros Hc.
  assert (Hstart : starts_with (js "<ul><li>") (formatText (js "* " ++ c :: rest)) = true).
  { unfold formatText.
    assert (H1 : exists tail,
      replace_all match_list_item (js "* " ++ c :: rest) = js "<li>" ++ tail).
    { unfold replace_all. change (js "* " ++ c :: rest) with (42 :: 32 :: c :: rest).
      cbn [replace_from]. unfold match_list_item at 1.
      change (42 =? LF) with false. cbv iota.
      unfold star_item at 1.
      change (starts_with (js "* ") (42 :: 32 :: c :: rest)) with true.
      cbv iota. cbn [skipn dot_run]. rewrite Hc.
      rewrite <- app_assoc. eexists. reflexivity. }
    destruct H1 as [tail ->].
    assert (H2 : forall (m : matcher) (tl : jsstring),
      (forall t, m (60 :: t) = None) -> (forall t, m (108 :: t) = None) ->
      (forall t, m (105 :: t) = None) -> (forall t, m (62 :: t) = None) ->
      replace_all m (js "<li>" ++ tl) = js "<li>" ++ replace_all m tl).
    { intros m tl A B C D.
      change (js "<li>" ++ tl) with (60 :: 108 :: 105 :: 62 :: tl).
      rewrite !replace_all_no_match by auto. reflexivity. }
    rewrite (H2 match_emphasis) by reflexivity.
    rewrite (H2 match_list_break) by reflexivity.
    cbv zeta.
    set (html := js "<li>" ++ _).
    assert (Hinc : includes (js "<li>") html = true).
    { unfold html. unfold includes.
      destruct (js "<li>" ++ _) eqn:E; rewrite <- E;
        rewrite starts_with_app; reflexivity. }
    rewrite Hinc. reflexivity. }
  split; [exact Hstart|].
  intros Heq. rewrite Heq in Hstart. discriminate.
Qed.

(* ===================================================================== *)
(** ** Messages of the user are formatted too *)
(* ===================================================================== *)

Lemma submit_messages (w : Widget) :
  trim (input_value w) <> [] ->
  messages (step w SubmitForm) =
  messages w ++
  {| origin := user; innerHTML := formatText (trim (input_value w)) |} ::
  match csrf_meta w with
  | Some _ => []
  | None => [error_message]
  end.
Proof.
  intros Hne. rewrite submit_spec. cbv zeta. rewrite (is_empty_false _ Hne).
  destruct (csrf_meta w); simpl; [reflexivity|].
  rewrite <- app_assoc. reflexivity.
Qed.

(** C10. A submitted text is rendered through [formatText] and set as the
    markup of the message, by the same [appendMessage] that renders the
    messages of the bot.  So the text is shown transformed, not verbatim,
    when it begins with [* ] and a character on the same line (it becomes
    a list) and when [Answer:] or [Response:] occurs in it. *)
Theorem user_message_is_formatted :
  forall w : Widget,
    trim (input_value w) <> [] ->
    let text := trim (input_value w) in
    (exists later,
        messages (step w SubmitForm) =
        messages w ++ {| origin := user; innerHTML := formatText text |} :: later) /\
    (forall (t : jsstring) (from : Origin) (w0 : Widget),
        appendMessage (str t) from w0 =
        (Ok tt, append_child {| origin := from; innerHTML := formatText t |} w0)) /\
    (forall c rest,
        text = js "* " ++ c :: rest -> is_line_terminator c = false ->
        starts_with (js "<ul><li>") (formatText text) = true /\
        formatText text <> text) /\
    (includes (js "Answer:") text = true \/
     includes (js "Response:") text = true ->
     formatText text <> text).
Proof.
  intros w Hne text. split; [|split; [|split]].
  - eexists. apply submit_messages, Hne.
  - intros t from w0. apply appendMessage_string.
  - intros c rest Ht Hc. rewrite Ht. apply formatText_item_changes, Hc.
  - apply formatText_emphasis_changes.
Qed.

(** Witness for C10: the user submits a bullet line with an answer tag. *)
Lemma user_message_is_formatted_witness :
  exists later,
    messages (step (set_input_value (js "* Answer: 42") (init None)) SubmitForm) =
    {| origin := user;
       innerHTML := js "<ul><li><strong>Answer:</strong> 42</li></ul>" |} :: later.
Proof.
  destruct (user_message_is_formatted
              (set_input_value (js "* Answer: 42") (init None))) as [H _].
  - vm_compute. discriminate.
  - exact H.
Defined.

(** Counterexample to C10 as stated: the text [* ], U+2028, [x] is its own
    trimmed form and begins with [* ], but the line separator is no match
    for [.+]; no expression matches and the message of the user holds the
    text verbatim. *)
Lemma star_line_separator_rendered_verbatim :
  trim [42; 32; 8232; 120] = [42; 32; 8232; 120] /\
  starts_with (js "* ") [42; 32; 8232; 120] = true /\
  messages
    (step (set_input_value [42; 32; 8232; 120] (init (Some (Some (js "tok")))))
       SubmitForm) =
  [{| origin := user; innerHTML := [42; 32; 8232; 120] |}].
Proof. repeat split; vm_compute; reflexivity. Qed.

(* ===================================================================== *)
(** ** Text that formatText leaves alone *)
(* ===================================================================== *)

Lemma replace_all_never_matches (m : matcher) (s : jsstring) :
  never_matches m s = true -> replace_all m s = s.
Proof.
  induction s as [|c t IH]; [reflexivity|]. simpl.
  destruct (m (c :: t)) eqn:Hm; [discriminate|]. intros Ht.
  rewrite (replace_all_no_match _ _ _ Hm), (IH Ht). reflexivity.
Qed.

Lemma never_matches_false (m : matcher) (s : jsstring) :
  never_matches m s = false ->
  exists pre post, s = pre ++ post /\ m post <> None.
Proof.
  induction s as [|c t IH]; [discriminate|]. simpl.
  destruct (m (c :: t)) eqn:Hm.
  - intros _. exists [], (c :: t). split; [reflexivity|congruence].
  - intros Ht. destruct (IH Ht) as (pre & post & Hs & Hp).
    exists (c :: pre), post. split; [rewrite Hs; reflexivity|exact Hp].
Qed.

Lemma replace_all_fixed (m : matcher) (s : jsstring) :
  adds_markup m -> replace_all m s = s -> never_matches m s = true.
Proof.
  intros Hm Heq. destruct (never_matches m s) eqn:Hn; [reflexivity|].
  destruct (never_matches_false _ _ Hn) as (pre & post & Hs & Hp).
  pose proof (replace_all_markup_lt _ Hm pre post Hp) as Hlt.
  rewrite <- Hs, Heq in Hlt. lia.
Qed.

(** X1. A text in which none of the three expressions matches comes back
    as it is, markup included (nothing is escaped), unless [<li>] occurs in
    it: then it is wrapped in a list container although no item was made. *)
Theorem formatText_unmatched :
  forall text : jsstring,
    unmatched text = true ->
    formatText text =
    if includes (js "<li>") text then js "<ul>" ++ text ++ js "</ul>" else text.
Proof.
  intros text H. unfold unmatched in H.
  apply andb_true_iff in H. destruct H as [H H3].
  apply andb_true_iff in H. destruct H as [H1 H2].
  unfold formatText.
  rewrite (replace_all_never_matches _ _ H1).
  rewrite (replace_all_never_matches _ _ H2).
  rewrite (replace_all_never_matches _ _ H3). reflexivity.
Qed.

(** Witness for X1: a script element passes through unchanged. *)
Lemma formatText_unmatched_witness :
  formatText (js "<script>alert(1)</script>") = js "<script>alert(1)</script>".
Proof.
  apply (formatText_unmatched (js "<script>alert(1)</script>")). reflexivity.
Defined.

(** X2. [formatText] gives back exactly its argument if and only if none
    of the three expressions matches in it and [<li>] does not occur in
    it. *)
Theorem formatText_unchanged_iff :
  forall text : jsstring,
    formatText text = text <->
    unmatched text = true /\ includes (js "<li>") text = false.
Proof.
  intros text. split.
  - intros Heq.
    assert (Hc : count_lt (formatText text) = count_lt text) by (rewrite Heq; reflexivity).
    destruct (formatText_markup_le text) as [Hle1 Hle2].
    pose proof Heq as Heq'. unfold formatText in Heq'. cbv zeta in Heq'.
    set (s1 := replace_all match_list_item text) in *.
    set (s2 := replace_all match_emphasis s1) in *.
    set (s3 := replace_all match_list_break s2) in *.
    pose proof (replace_all_markup_le _ match_list_item_adds_markup text) as L1.
    pose proof (replace_all_markup_le _ match_emphasis_adds_markup s1) as L2.
    pose proof (replace_all_markup_le _ match_list_break_adds_markup s2) as L3.
    fold s1 in L1. fold s2 in L2. fold s3 in L3.
    assert (Hwrap : includes (js "<li>") s3 = false).
    { destruct (includes (js "<li>") s3); [|reflexivity]. exfalso.
      apply (f_equal count_lt) in Heq'. rewrite !count_lt_app in Heq'.
      change (count_lt (js "<ul>")) with 1%nat in Heq'. lia. }
    rewrite Hwrap in Heq'.
    assert (Hc3 : count_lt s3 = count_lt text) by (rewrite Heq'; reflexivity).
    assert (E1 : s1 = text).
    { destruct (replace_all_same_or_more _ match_list_item_adds_markup text)
        as [E|E]; [exact E|]. fold s1 in E. lia. }
    assert (E2 : s2 = s1).
    { destruct (replace_all_same_or_more _ match_emphasis_adds_markup s1)
        as [E|E]; [exact E|]. fold s2 in E. lia. }
    assert (E3 : s3 = s2).
    { destruct (replace_all_same_or_more _ match_list_break_adds_markup s2)
        as [E|E]; [exact E|]. fold s3 in E. lia. }
    split.
    + unfold unmatched.
      rewrite (replace_all_fixed _ _ match_list_item_adds_markup E1).
      unfold s2 in E2. rewrite E1 in E2.
      rewrite (replace_all_fixed _ _ match_emphasis_adds_markup E2).
      unfold s3, s2 in E3. rewrite E1, E2 in E3.
      rewrite (replace_all_fixed _ _ match_list_break_adds_markup E3).
      reflexivity.
    + rewrite Heq' in Hwrap. exact Hwrap.
  - intros [Hu Hi]. unfold unmatched in Hu.
    apply andb_true_iff in Hu. destruct Hu as [Hu H3].
    apply andb_true_iff in Hu. destruct Hu as [H1 H2].
    unfold formatText.
    rewrite (replace_all_never_matches _ _ H1).
    rewrite (replace_all_never_matches _ _ H2).
    rewrite (replace_all_never_matches _ _ H3).
    cbv zeta. rewrite Hi. reflexivity.
Qed.

(** Witness for X2: a plain sentence comes back as it is, and a text that
    comes back as it is holds no list item. *)
Lemma formatText_unchanged_iff_witness :
  formatText (js "Take a short break.") = js "Take a short break." /\
  includes (js "<li>") (js "Take a short break.") = false.
Proof.
  assert (H : formatText (js "Take a short break.") = js "Take a short break.").
  { apply (proj2 (formatText_unchanged_iff (js "Take a short break."))).
    split; reflexivity. }
  split; [exact H|].
  apply (proj1 (formatText_unchanged_iff (js "Take a short break.")) H).
Defined.

Lemma subseq_refl {A : Type} (l : list A) : subseq l l.
Proof. induction l as [|x l IH]; [apply subseq_nil|apply subseq_take, IH]. Qed.
















(* ===================================================================== *)
(** ** Where the expressions can match *)
(* ===================================================================== *)

Lemma starts_with_head (x c : code_unit) (p t : jsstring) :
  starts_with (x :: p) (c :: t) = true -> c = x.
Proof.
  simpl. intros H. apply andb_true_iff in H. destruct H as [H _].
  apply N.eqb_eq in H. congruence.
Qed.

Lemma star_item_head (off : nat) (c : code_unit) (t : jsstring) :
  star_item off (c :: t) <> None -> c = 42.
Proof.
  unfold star_item. intros H.
  destruct (starts_with (js "* ") (c :: t)) eqn:Hs; [|congruence].
  change (js "* ") with [42; 32] in Hs. exact (starts_with_head _ _ _ _ Hs).
Qed.

Lemma match_list_item_head (c : code_unit) (t : jsstring) :
  match_list_item (c :: t) <> None -> c = 10 \/ c = 42.
Proof.
  unfold match_list_item. intros H.
  destruct (c =? LF) eqn:Hc; [left; apply N.eqb_eq, Hc|].
  right. exact (star_item_head _ _ _ H).
Qed.

Lemma match_emphasis_head (c : code_unit) (t : jsstring) :
  match_emphasis (c :: t) <> None -> c = 65 \/ c = 82.
Proof.
  unfold match_emphasis. intros H.
  destruct (starts_with (js "Answer:") (c :: t)) eqn:Ha.
  - left. change (js "Answer:") with (65 :: js "nswer:") in Ha.
    exact (starts_with_head _ _ _ _ Ha).
  - destruct (starts_with (js "Response:") (c :: t)) eqn:Hr; [|congruence].
    right. change (js "Response:") with (82 :: js "esponse:") in Hr.
    exact (starts_with_head _ _ _ _ Hr).
Qed.

Lemma match_list_break_head (c : code_unit) (t : jsstring) :
  match_list_break (c :: t) <> None -> c = 10.
Proof.
  unfold match_list_break. simpl. intros H.
  destruct (c =? LF) eqn:Hc; [apply N.eqb_eq, Hc|].
  simpl in H. congruence.
Qed.

Lemma inert_no_match (c : code_unit) (t : jsstring) :
  inert c = true ->
  match_list_item (c :: t) = None /\
  match_emphasis (c :: t) = None /\
  match_list_break (c :: t) = None.
Proof.
  unfold inert. intros H. apply negb_true_iff in H.
  repeat (apply orb_false_iff in H; destruct H as [H ?]).
  rewrite N.eqb_neq in *.
  split; [|split].
  - destruct (match_list_item (c :: t)) eqn:E; [|reflexivity].
    destruct (match_list_item_head c t); congruence.
  - destruct (match_emphasis (c :: t)) eqn:E; [|reflexivity].
    destruct (match_emphasis_head c t); congruence.
  - destruct (match_list_break (c :: t)) eqn:E; [|reflexivity].
    assert (c = 10) by (apply (match_list_break_head c t); congruence).
    congruence.
Qed.

(** A prefix at whose code units the expression cannot begin a match is
    copied. *)
Lemma replace_all_prefix (m : matcher) (P : code_unit -> bool)
      (pre s : jsstring) :
  (forall c t, P c = true -> m (c :: t) = None) ->
  forallb P pre = true ->
  replace_all m (pre ++ s) = pre ++ replace_all m s.
Proof.
  intros HP. induction pre as [|c pre IH]; [reflexivity|].
  simpl. intros H. apply andb_true_iff in H. destruct H as [Hc Hpre].
  rewrite replace_all_no_match by (apply HP, Hc).
  rewrite (IH Hpre). reflexivity.
Qed.

Lemma replace_all_nil (m : matcher) : replace_all m [] = [].
Proof. reflexivity. Qed.

Lemma replace_all_inert (m : matcher) (P : code_unit -> bool) (s : jsstring) :
  (forall c t, P c = true -> m (c :: t) = None) ->
  forallb P s = true ->
  replace_all m s = s.
Proof.
  intros HP Hs. rewrite <- (app_nil_r s) at 1.
  rewrite (replace_all_prefix m P s [] HP Hs), replace_all_nil.
  apply app_nil_r.
Qed.

Lemma forallb_weaken (P Q : code_unit -> bool) (s : jsstring) :
  (forall c, P c = true -> Q c = true) ->
  forallb P s = true -> forallb Q s = true.
Proof.
  intros HPQ. induction s as [|c t IH]; [reflexivity|]. simpl.
  intros H. apply andb_true_iff in H. destruct H as [Hc Ht].
  rewrite (HPQ _ Hc), (IH Ht). reflexivity.
Qed.

Lemma no_emphasis_at (c : code_unit) (t : jsstring) :
  negb ((c =? 65) || (c =? 82)) = true -> match_emphasis (c :: t) = None.
Proof.
  intros H. apply negb_true_iff, orb_false_iff in H. destruct H as [Ha Hr].
  rewrite N.eqb_neq in *.
  destruct (match_emphasis (c :: t)) eqn:E; [|reflexivity].
  destruct (match_emphasis_head c t); congruence.
Qed.

Lemma no_break_at (c : code_unit) (t : jsstring) :
  negb (c =? LF) = true -> match_list_break (c :: t) = None.
Proof.
  intros H. apply negb_true_iff in H. rewrite N.eqb_neq in H.
  destruct (match_list_break (c :: t)) eqn:E; [|reflexivity].
  assert (c = 10) by (apply (match_list_break_head c t); congruence).
  unfold LF in H. congruence.
Qed.

Lemma replace_breaks_without_newline (s : jsstring) :
  lacks LF s = true -> replace_all match_list_break s = s.
Proof. apply replace_all_inert. exact no_break_at. Qed.

Lemma lacks_app (x : code_unit) (a b : jsstring) :
  lacks x (a ++ b) = lacks x a && lacks x b.
Proof. apply forallb_app. Qed.

Lemma newline_run_repeat (k : nat) (q : jsstring) :
  match q with [] => true | c :: _ => negb (c =? LF) end = true ->
  newline_run (repeat LF k ++ q) = k.
Proof.
  intros Hq. induction k as [|k IH].
  - destruct q as [|c q]; [reflexivity|]. simpl.
    apply negb_true_iff in Hq. rewrite Hq. reflexivity.
  - simpl. rewrite IH. reflexivity.
Qed.

(** A run of two or more newlines between texts without newlines becomes
    the boundary markup. *)
Lemma replace_breaks_gap (p q : jsstring) (n : nat) :
  lacks LF p = true -> lacks LF q = true ->
  replace_all match_list_break (p ++ repeat LF (S (S n)) ++ q) =
  p ++ js "</ul><br><ul>" ++ q.
Proof.
  intros Hp Hq.
  rewrite (replace_all_prefix _ _ p _ no_break_at Hp). f_equal.
  rewrite (replace_all_match _ (repeat LF (S (S n))) q (js "</ul><br><ul>")).
  - rewrite (replace_breaks_without_newline _ Hq). reflexivity.
  - discriminate.
  - unfold match_list_break. rewrite newline_run_repeat.
    + rewrite repeat_length. reflexivity.
    + destruct q as [|c q]; [reflexivity|]. simpl in Hq.
      apply andb_true_iff in Hq. destruct Hq as [Hc _]. exact Hc.
Qed.

(* ===================================================================== *)
(** ** Bullet lines *)
(* ===================================================================== *)

Lemma one_line_inv (item : jsstring) :
  one_line item = true ->
  item <> [] /\ forallb (fun c => negb (is_line_terminator c)) item = true.
Proof.
  unfold one_line. intros H. apply andb_true_iff in H. destruct H as [Hne Hl].
  split; [|exact Hl]. destruct item; [discriminate|discriminate].
Qed.

(** [.+] takes a line up to the newline that ends it. *)
Lemma dot_run_line (item tail : jsstring) :
  forallb (fun c => negb (is_line_terminator c)) item = true ->
  match tail with [] => true | c :: _ => c =? LF end = true ->
  dot_run (item ++ tail) = item.
Proof.
  intros Hi Ht. induction item as [|c item IH].
  - destruct tail as [|c tail]; [reflexivity|]. simpl.
    apply N.eqb_eq in Ht. subst c. reflexivity.
  - simpl in *. apply andb_true_iff in Hi. destruct Hi as [Hc Hi].
    apply negb_true_iff in Hc. rewrite Hc, (IH Hi). reflexivity.
Qed.

Lemma star_item_line (off : nat) (item tail : jsstring) :
  one_line item = true ->
  match tail with [] => true | c :: _ => c =? LF end = true ->
  star_item off (js "* " ++ item ++ tail) =
  Some (js "<li>" ++ item ++ js "</li>", (off + 2 + List.length item)%nat).
Proof.
  intros Hi Ht. destruct (one_line_inv _ Hi) as [Hne Hl].
  unfold star_item. rewrite starts_with_app.
  change (skipn 2 (js "* " ++ item ++ tail)) with (item ++ tail).
  rewrite (dot_run_line _ _ Hl Ht).
  destruct item; [congruence|reflexivity].
Qed.

Lemma join_tail_ok (rest : list jsstring) (tail : jsstring) :
  match tail with [] => true | c :: _ => c =? LF end = true ->
  match List.concat (map (fun j => LF :: js "* " ++ j) rest) ++ tail with
  | [] => true
  | c :: _ => c =? LF
  end = true.
Proof. intros Ht. destruct rest; [exact Ht|reflexivity]. Qed.

(** The list-item expression on the second and later bullet lines: each
    match takes the newline before the line. *)
Lemma replace_items_next_lines (rest : list jsstring) (tail : jsstring) :
  forallb one_line rest = true ->
  match tail with [] => true | c :: _ => c =? LF end = true ->
  replace_all match_list_item
    (List.concat (map (fun j => LF :: js "* " ++ j) rest) ++ tail) =
  List.concat (map (fun j => js "<li>" ++ j ++ js "</li>") rest) ++
  replace_all match_list_item tail.
Proof.
  intros Hr Ht. induction rest as [|j rest IH]; [reflexivity|].
  simpl in Hr. apply andb_true_iff in Hr. destruct Hr as [Hj Hr].
  cbn [map List.concat]. rewrite <- !app_assoc.
  change ((LF :: js "* " ++ j) ++
          List.concat (map (fun j0 => LF :: js "* " ++ j0) rest) ++ tail)
    with ((LF :: js "* " ++ j) ++
          (List.concat (map (fun j0 => LF :: js "* " ++ j0) rest) ++ tail)).
  rewrite (replace_all_match _ (LF :: js "* " ++ j) _ (js "<li>" ++ j ++ js "</li>")).
  - rewrite (IH Hr). rewrite <- !app_assoc. reflexivity.
  - discriminate.
  - cbn [app]. unfold match_list_item. rewrite N.eqb_refl.
    rewrite <- app_assoc.
    rewrite (star_item_line 1 j _ Hj (join_tail_ok rest tail Ht)).
    cbn [List.length]. rewrite length_app. reflexivity.
Qed.

(** The list-item expression on a block of bullet lines. *)
Lemma replace_items_bullet_lines (items : list jsstring) (tail : jsstring) :
  items <> [] ->
  forallb one_line items = true ->
  match tail with [] => true | c :: _ => c =? LF end = true ->
  replace_all match_list_item (bullet_lines items ++ tail) =
  List.concat (map (fun j => js "<li>" ++ j ++ js "</li>") items) ++
  replace_all match_list_item tail.
Proof.
  intros Hne Hall Ht. destruct items as [|i rest]; [congruence|].
  simpl in Hall. apply andb_true_iff in Hall. destruct Hall as [Hi Hr].
  unfold bullet_lines. cbn [map List.concat]. rewrite <- !app_assoc.
  change (js "* " ++ i ++
          List.concat (map (fun j => LF :: js "* " ++ j) rest) ++ tail)
    with (js "* " ++ i ++
          (List.concat (map (fun j => LF :: js "* " ++ j) rest) ++ tail)).
  rewrite app_assoc.
  rewrite (replace_all_match _ (js "* " ++ i) _ (js "<li>" ++ i ++ js "</li>")).
  - rewrite (replace_items_next_lines _ _ Hr Ht).
    rewrite <- !app_assoc. reflexivity.
  - destruct (one_line_inv _ Hi) as [Hn _]. destruct i; [congruence|discriminate].
  - rewrite <- app_assoc. unfold match_list_item.
    change (js "* " ++ i ++
            List.concat (map (fun j => LF :: js "* " ++ j) rest) ++ tail)
      with (42 :: (32 :: i ++
            List.concat (map (fun j => LF :: js "* " ++ j) rest) ++ tail)).
    change (42 =? LF) with false. cbv iota.
    change (42 :: (32 :: i ++
            List.concat (map (fun j => LF :: js "* " ++ j) rest) ++ tail))
      with (js "* " ++ i ++
            (List.concat (map (fun j => LF :: js "* " ++ j) rest) ++ tail)).
    rewrite (star_item_line 0 i _ Hi (join_tail_ok rest tail Ht)).
    rewrite length_app. reflexivity.
Qed.

(** A newline followed by a newline is not taken by the list-item
    expression. *)
Lemma replace_items_newlines (k : nat) (t : jsstring) :
  replace_all match_list_item (repeat LF k ++ LF :: t) =
  repeat LF k ++ replace_all match_list_item (LF :: t).
Proof.
  induction k as [|k IH]; [reflexivity|].
  cbn [repeat app]. rewrite replace_all_no_match; [rewrite IH; reflexivity|].
  destruct (match_list_item (LF :: repeat LF k ++ LF :: t)) eqn:E;
    [|reflexivity].
  exfalso. unfold match_list_item in E. rewrite N.eqb_refl in E.
  assert (Hnone : forall off s, star_item off (LF :: s) = None).
  { intros off s. destruct (star_item off (LF :: s)) eqn:E'; [|reflexivity].
    assert (LF = 42) by (apply (star_item_head off LF s); congruence).
    discriminate. }
  destruct k; cbn [repeat app] in E; rewrite !Hnone in E; discriminate.
Qed.

(* ===================================================================== *)
(** ** Emphasis never spans a separator *)
(* ===================================================================== *)

Lemma starts_with_before (x : code_unit) (p s r : jsstring) :
  lacks x p = true ->
  starts_with p (s ++ x :: r) = starts_with p s.
Proof.
  revert s. induction p as [|y p IH]; intros s Hp; [reflexivity|].
  simpl in Hp. apply andb_true_iff in Hp. destruct Hp as [Hy Hp].
  destruct s as [|c s]; simpl.
  - apply negb_true_iff in Hy. rewrite Hy. reflexivity.
  - rewrite (IH s Hp). reflexivity.
Qed.

Section Separator.

Variable x : code_unit.
Hypothesis Hanswer : lacks x (js "Answer:") = true.
Hypothesis Hresponse : lacks x (js "Response:") = true.

Lemma match_emphasis_before (s r : jsstring) :
  match_emphasis (s ++ x :: r) = match_emphasis s.
Proof.
  unfold match_emphasis.
  rewrite (starts_with_before x _ s r Hanswer).
  rewrite (starts_with_before x _ s r Hresponse). reflexivity.
Qed.

(** The emphasis replacement works on the two sides of a code unit that
    occurs in neither token separately. *)
Lemma replace_emphasis_split_bounded (n : nat) :
  forall s r, (List.length s <= n)%nat ->
    replace_all match_emphasis (s ++ x :: r) =
    replace_all match_emphasis s ++ x :: replace_all match_emphasis r.
Proof.
  induction n as [|n IH]; intros s r Hlen.
  - destruct s; [|simpl in Hlen; lia]. cbn [app].
    rewrite replace_all_no_match; [reflexivity|].
    apply (match_emphasis_before [] r).
  - destruct s as [|c t].
    + cbn [app]. rewrite replace_all_no_match; [reflexivity|].
      apply (match_emphasis_before [] r).
    + pose proof (match_emphasis_before (c :: t) r) as Hsame.
      destruct (match_emphasis (c :: t)) as [[rep len]|] eqn:Hm.
      * destruct (match_emphasis_adds_markup _ _ _ Hm)
          as (matched & rest & Hs & Hl & Hpos & _).
        rewrite Hs in *. rewrite <- app_assoc in *. subst len.
        assert (Hne : matched <> []) by (destruct matched; [simpl in Hpos; lia|discriminate]).
        rewrite (replace_all_match _ matched (rest ++ x :: r) rep Hne Hsame).
        rewrite (replace_all_match _ matched rest rep Hne Hm).
        rewrite IH; [rewrite <- app_assoc; reflexivity|].
        rewrite length_app in Hlen. lia.
      * cbn [app] in *. rewrite (replace_all_no_match _ _ _ Hsame).
        rewrite (replace_all_no_match _ _ _ Hm).
        rewrite IH by (simpl in Hlen; lia). reflexivity.
Qed.

Lemma replace_emphasis_split (s r : jsstring) :
  replace_all match_emphasis (s ++ x :: r) =
  replace_all match_emphasis s ++ x :: replace_all match_emphasis r.
Proof. apply (replace_emphasis_split_bounded (List.length s)). lia. Qed.

End Separator.

Lemma replace_emphasis_lacks_bounded (x : code_unit) (n : nat) :
  lacks x (js "<strong>Answer:</strong>") = true ->
  lacks x (js "<strong>Response:</strong>") = true ->
  forall s, (List.length s <= n)%nat ->
    lacks x s = true -> lacks x (replace_all match_emphasis s) = true.
Proof.
  intros Ha Hr. induction n as [|n IH]; intros s Hlen Hs.
  - destruct s; [reflexivity|simpl in Hlen; lia].
  - destruct s as [|c t]; [reflexivity|].
    destruct (match_emphasis (c :: t)) as [[rep len]|] eqn:Hm.
    + destruct (match_emphasis_adds_markup _ _ _ Hm)
        as (matched & rest & Heq & Hl & Hpos & _).
      assert (Hne : matched <> []) by (destruct matched; [simpl in Hl; lia|discriminate]).
      assert (Hrep : lacks x rep = true).
      { unfold match_emphasis in Hm.
        destruct (starts_with (js "Answer:") (c :: t));
          [injection Hm as <- _; exact Ha|].
        destruct (starts_with (js "Response:") (c :: t));
          [injection Hm as <- _; exact Hr|discriminate]. }
      rewrite Heq in *. subst len.
      rewrite (replace_all_match _ matched rest rep Hne Hm).
      rewrite lacks_app in *. apply andb_true_iff in Hs. destruct Hs as [_ Hrest].
      rewrite Hrep, IH; [reflexivity| |exact Hrest].
      rewrite length_app in Hlen. destruct matched; [congruence|simpl in Hlen; lia].
    + rewrite (replace_all_no_match _ _ _ Hm).
      simpl in Hs |- *. apply andb_true_iff in Hs. destruct Hs as [Hc Ht].
      rewrite Hc, IH; [reflexivity|simpl in Hlen; lia|exact Ht].
Qed.

Lemma replace_emphasis_no_newline (s : jsstring) :
  lacks LF s = true -> lacks LF (replace_all match_emphasis s) = true.
Proof.
  apply (replace_emphasis_lacks_bounded LF (List.length s));
    first [reflexivity | lia].
Qed.

Lemma replace_emphasis_items (items : list jsstring) (tail : jsstring) :
  replace_all match_emphasis
    (List.concat (map (fun j => js "<li>" ++ j ++ js "</li>") items) ++ tail) =
  list_items items ++ replace_all match_emphasis tail.
Proof.
  induction items as [|i items IH]; [reflexivity|].
  unfold list_items. cbn [map List.concat]. rewrite <- !app_assoc.
  rewrite (replace_all_prefix _ (fun c => negb ((c =? 65) || (c =? 82)))
             (js "<li>") _ no_emphasis_at eq_refl).
  f_equal.
  change (js "</li>" ++
          List.concat (map (fun j => js "<li>" ++ j ++ js "</li>") items) ++ tail)
    with (60 :: (js "/li>" ++
          List.concat (map (fun j => js "<li>" ++ j ++ js "</li>") items) ++ tail)).
  rewrite (replace_emphasis_split 60 eq_refl eq_refl).
  f_equal.
  rewrite (replace_all_prefix _ (fun c => negb ((c =? 65) || (c =? 82)))
             (js "/li>") _ no_emphasis_at eq_refl).
  rewrite IH. reflexivity.
Qed.

Lemma one_line_no_newline (item : jsstring) :
  one_line item = true -> lacks LF item = true.
Proof.
  intros H. destruct (one_line_inv _ H) as [_ Hl].
  revert Hl. apply forallb_weaken. intros c Hc.
  unfold is_line_terminator in Hc. apply negb_true_iff in Hc.
  repeat (apply orb_false_iff in Hc; destruct Hc as [Hc ?]).
  apply negb_true_iff. exact Hc.
Qed.

Lemma list_items_no_newline (items : list jsstring) :
  forallb one_line items = true -> lacks LF (list_items items) = true.
Proof.
  induction items as [|i items IH]; [reflexivity|].
  cbn [forallb]. intros H. apply andb_true_iff in H. destruct H as [Hi Hr].
  unfold list_items in *. cbn [map List.concat].
  rewrite !lacks_app, (IH Hr).
  rewrite (replace_emphasis_no_newline _ (one_line_no_newline _ Hi)).
  reflexivity.
Qed.

Lemma includes_after_prefix (needle pre s : jsstring) :
  includes needle s = true -> includes needle (pre ++ s) = true.
Proof.
  intros H. induction pre as [|c pre IH]; [exact H|].
  cbn [app includes]. rewrite IH. apply orb_true_r.
Qed.

Lemma includes_at_start (needle r : jsstring) :
  includes needle (needle ++ r) = true.
Proof.
  destruct (needle ++ r) eqn:E; simpl; rewrite <- E, starts_with_app; reflexivity.
Qed.

Lemma includes_list_items (items : list jsstring) (r : jsstring) :
  items <> [] -> includes (js "<li>") (list_items items ++ r) = true.
Proof.
  destruct items as [|i items]; [congruence|]. intros _.
  unfold list_items. cbn [map List.concat]. rewrite <- !app_assoc.
  apply includes_at_start.
Qed.

Lemma inert_no_newline (s : jsstring) :
  forallb inert s = true -> lacks LF s = true.
Proof.
  apply forallb_weaken. intros c Hc. unfold inert in Hc.
  apply negb_true_iff in Hc.
  repeat (apply orb_false_iff in Hc; destruct Hc as [Hc ?]).
  apply negb_true_iff. exact Hc.
Qed.

(** X4. Bullet lines joined by single newlines, after any text that
    contains no newline, [*], [A] or [R], become one list: each line
    [* item] is one [<li>] holding the item (with its [Answer:] and
    [Response:] emphasised), the newlines between the lines are dropped,
    and the container wraps the whole result, the text before the first
    bullet included. *)
Theorem formatText_bullet_list :
  forall (pre : jsstring) (items : list jsstring),
    forallb inert pre = true ->
    items <> [] ->
    forallb one_line items = true ->
    formatText (pre ++ bullet_lines items) =
    js "<ul>" ++ pre ++ list_items items ++ js "</ul>".
Proof.
  intros pre items Hpre Hne Hall. unfold formatText.
  rewrite (replace_all_prefix match_list_item inert pre _
             (fun c t H => proj1 (inert_no_match c t H)) Hpre).
  rewrite <- (app_nil_r (bullet_lines items)).
  rewrite (replace_items_bullet_lines items [] Hne Hall eq_refl).
  rewrite replace_all_nil.
  rewrite (replace_all_prefix match_emphasis inert pre _
             (fun c t H => proj1 (proj2 (inert_no_match c t H))) Hpre).
  rewrite replace_emphasis_items, replace_all_nil, app_nil_r.
  rewrite (replace_breaks_without_newline (pre ++ list_items items)).
  - cbv zeta.
    assert (Hin : includes (js "<li>") (pre ++ list_items items) = true).
    { apply includes_after_prefix.
      rewrite <- (app_nil_r (list_items items)).
      apply includes_list_items, Hne. }
    rewrite Hin, <- app_assoc. reflexivity.
  - rewrite lacks_app, (inert_no_newline _ Hpre), (list_items_no_newline _ Hall).
    reflexivity.
Qed.

(** Witness for X4: two bullets after a heading on the same line. *)
Lemma formatText_bullet_list_witness :
  formatText (js "Tips: * rest" ++ [LF] ++ js "* Answer: walk") =
  js "<ul>Tips: <li>rest</li><li><strong>Answer:</strong> walk</li></ul>".
Proof.
  apply (formatText_bullet_list (js "Tips: ") [js "rest"; js "Answer: walk"]).
  - reflexivity.
  - discriminate.
  - reflexivity.
Defined.

(* ===================================================================== *)
(** ** Blank lines *)
(* ===================================================================== *)

Lemma forallb_repeat (P : code_unit -> bool) (y : code_unit) (k : nat) :
  P y = true -> forallb P (repeat y k) = true.
Proof.
  intros Hy. induction k as [|k IH]; [reflexivity|].
  simpl. rewrite Hy, IH. reflexivity.
Qed.

Lemma replace_items_without_star (s : jsstring) :
  lacks 42 s = true -> replace_all match_list_item s = s.
Proof.
  intros Hs. apply replace_all_never_matches.
  induction s as [|c t IH]; [reflexivity|].
  simpl in Hs. apply andb_true_iff in Hs. destruct Hs as [Hc Ht].
  apply negb_true_iff in Hc. rewrite N.eqb_neq in Hc.
  assert (Hstar : forall off u, lacks 42 u = true -> star_item off u = None).
  { intros off u Hu. destruct u as [|d u]; [reflexivity|].
    destruct (star_item off (d :: u)) eqn:E; [|reflexivity].
    assert (d = 42) by (apply (star_item_head off d u); congruence).
    subst d. discriminate. }
  assert (Hm : match_list_item (c :: t) = None).
  { unfold match_list_item.
    rewrite (Hstar 1%nat t Ht).
    rewrite (Hstar 0%nat (c :: t));
      [destruct (c =? LF); reflexivity|].
    simpl. rewrite Ht. apply N.eqb_neq in Hc. rewrite Hc. reflexivity. }
  cbn [never_matches]. rewrite Hm. exact (IH Ht).
Qed.

Lemma includes_item_after (p s : jsstring) :
  lacks 60 p = true ->
  includes (js "<li>") (p ++ s) = includes (js "<li>") s.
Proof.
  intros Hp. induction p as [|c p IH]; [reflexivity|].
  simpl in Hp. apply andb_true_iff in Hp. destruct Hp as [Hc Hp].
  apply negb_true_iff in Hc. rewrite N.eqb_sym in Hc.
  cbn [app includes]. rewrite (IH Hp).
  change (js "<li>") with (60 :: js "li>") at 1.
  cbn [starts_with]. rewrite Hc. reflexivity.
Qed.

(** X5. A blank line (a run of two or more newlines) between two plain
    paragraphs, texts without newline, [*], [A], [R] and [<], is replaced
    by the markup that closes and reopens a list, although no list
    container is put around the result: the text comes back with a
    closing tag that nothing opened. *)
Theorem formatText_paragraph_break :
  forall (p q : jsstring) (n : nat),
    forallb inert p = true -> lacks 60 p = true ->
    forallb inert q = true -> lacks 60 q = true ->
    formatText (p ++ repeat LF (S (S n)) ++ q) = p ++ js "</ul><br><ul>" ++ q.
Proof.
  intros p q n Hp Hp60 Hq Hq60.
  assert (Hstar : forall s, forallb inert s = true -> lacks 42 s = true).
  { intros s. apply forallb_weaken. intros c Hc. unfold inert in Hc.
    apply negb_true_iff in Hc.
    repeat (apply orb_false_iff in Hc; destruct Hc as [Hc ?]).
    apply negb_true_iff. assumption. }
  assert (Hplain : forall s, forallb inert s = true ->
            forallb (fun c => negb ((c =? 65) || (c =? 82))) s = true).
  { intros s. apply forallb_weaken. intros c Hc. unfold inert in Hc.
    apply negb_true_iff in Hc.
    repeat (apply orb_false_iff in Hc; destruct Hc as [Hc ?]).
    apply negb_true_iff, orb_false_iff. split; assumption. }
  unfold formatText.
  rewrite replace_items_without_star.
  2:{ rewrite !lacks_app, (Hstar _ Hp), (Hstar _ Hq).
      unfold lacks at 1. rewrite forallb_repeat; reflexivity. }
  rewrite (replace_all_inert match_emphasis _ _ no_emphasis_at).
  2:{ rewrite !forallb_app.
      apply andb_true_iff; split; [apply Hplain, Hp|].
      apply andb_true_iff; split; [apply forallb_repeat; reflexivity|].
      apply Hplain, Hq. }
  rewrite (replace_breaks_gap p q n (inert_no_newline _ Hp) (inert_no_newline _ Hq)).
  cbv zeta. rewrite (includes_item_after p _ Hp60).
  change (js "</ul><br><ul>" ++ q)
    with ([60; 47; 117; 108; 62; 60; 98; 114; 62; 60; 117; 108; 62] ++ q).
  change (js "<li>") with [60; 108; 105; 62].
  cbn [app includes starts_with N.eqb Pos.eqb andb orb].
  change [60; 108; 105; 62] with (js "<li>").
  rewrite <- (app_nil_r q), (includes_item_after q [] Hq60). reflexivity.
Qed.

(** Witness for X5: two sentences separated by one blank line. *)
Lemma formatText_paragraph_break_witness :
  formatText (js "one" ++ [LF; LF] ++ js "two") = js "one</ul><br><ul>two".
Proof.
  apply (formatText_paragraph_break (js "one") (js "two") 0); reflexivity.
Defined.

Lemma repeat_shift (k : nat) (t : jsstring) :
  repeat LF (S k) ++ t = repeat LF k ++ LF :: t.
Proof.
  induction k as [|k IH]; [reflexivity|].
  change (repeat LF (S (S k)) ++ t) with (LF :: (repeat LF (S k) ++ t)).
  rewrite IH. reflexivity.
Qed.

(** X6. Two blocks of bullet lines separated by three or more newlines
    become two separate lists with a line break between them: the
    list-item expression takes the last newline of the run, the rest of
    the run becomes the boundary, and the container closes the second
    list. *)
Theorem formatText_two_lists :
  forall (a b : list jsstring) (n : nat),
    a <> [] -> b <> [] ->
    forallb one_line a = true -> forallb one_line b = true ->
    formatText (bullet_lines a ++ repeat LF (S (S (S n))) ++ bullet_lines b) =
    js "<ul>" ++ list_items a ++ js "</ul><br><ul>" ++ list_items b ++ js "</ul>".
Proof.
  intros a b n Ha Hb Halla Hallb. unfold formatText.
  rewrite (replace_items_bullet_lines a
             (repeat LF (S (S (S n))) ++ bullet_lines b) Ha Halla eq_refl).
  rewrite repeat_shift, replace_items_newlines.
  assert (Hb1 : replace_all match_list_item (LF :: bullet_lines b) =
                List.concat (map (fun j => js "<li>" ++ j ++ js "</li>") b)).
  { destruct b as [|b1 br]; [congruence|].
    change (LF :: bullet_lines (b1 :: br))
      with (List.concat (map (fun j => LF :: js "* " ++ j) (b1 :: br))).
    rewrite <- (app_nil_r (List.concat _)).
    rewrite (replace_items_next_lines _ [] Hallb eq_refl).
    rewrite replace_all_nil. apply app_nil_r. }
  rewrite Hb1.
  rewrite replace_emphasis_items.
  rewrite (replace_all_prefix _ (fun c => negb ((c =? 65) || (c =? 82)))
             (repeat LF (S (S n))) _ no_emphasis_at
             (forallb_repeat _ LF _ eq_refl)).
  rewrite <- (app_nil_r (List.concat _)).
  rewrite replace_emphasis_items, replace_all_nil, app_nil_r.
  rewrite (replace_breaks_gap _ _ n (list_items_no_newline _ Halla)
             (list_items_no_newline _ Hallb)).
  cbv zeta. rewrite (includes_list_items a _ Ha).
  rewrite <- !app_assoc. reflexivity.
Qed.

(** Witness for X6: two one-item blocks with two blank lines between. *)
Lemma formatText_two_lists_witness :
  formatText (js "* a" ++ [LF; LF; LF] ++ js "* b") =
  js "<ul><li>a</li></ul><br><ul><li>b</li></ul>".
Proof.
  apply (formatText_two_lists [js "a"] [js "b"] 0);
    first [discriminate | reflexivity].
Defined.

(* ===================================================================== *)
(** ** Submitting, again *)
(* ===================================================================== *)

Lemma trim_start_nil (s : jsstring) :
  trim_start s = [] -> forallb is_whitespace s = true.
Proof.
  induction s as [|c t IH]; [reflexivity|]. simpl.
  destruct (is_whitespace c); [exact IH|discriminate].
Qed.

Lemma trim_nil (s : jsstring) :
  trim s = [] -> forallb is_whitespace s = true.
Proof.
  unfold trim, trim_end. intros H.
  apply (f_equal (@rev code_unit)) in H. rewrite rev_involutive in H.
  simpl in H. apply trim_start_nil in H.
  assert (Hall : forallb is_whitespace (trim_start s) = true).
  { apply forallb_forall. intros c Hc.
    rewrite forallb_forall in H. apply H. apply in_rev in Hc. exact Hc. }
  clear H. induction s as [|c t IH]; [reflexivity|].
  simpl in *. destruct (is_whitespace c) eqn:Hc; [exact (IH Hall)|].
  simpl in Hall. rewrite Hc in Hall. discriminate.
Qed.

Lemma submit_blank (w : Widget) :
  trim (input_value w) = [] -> step w SubmitForm = w.
Proof. intros H. rewrite submit_spec. cbv zeta. rewrite H. reflexivity. Qed.

Lemma submit_clears_input (w : Widget) :
  trim (input_value w) <> [] -> input_value (step w SubmitForm) = [].
Proof.
  intros Hne. rewrite submit_spec. cbv zeta. rewrite (is_empty_false _ Hne).
  destruct (csrf_meta w); reflexivity.
Qed.

(** X7. Submitting leaves the widget exactly as it was if and only if the
    input holds nothing but whitespace: any other input changes it. *)
Theorem submit_noop_iff_whitespace :
  forall w : Widget,
    step w SubmitForm = w <-> forallb is_whitespace (input_value w) = true.
Proof.
  intros w. split.
  - intros Hsame. apply trim_nil.
    destruct (trim (input_value w)) as [|c t] eqn:Ht; [reflexivity|].
    exfalso.
    assert (Hne : trim (input_value w) <> []) by (rewrite Ht; discriminate).
    pose proof (submit_messages w Hne) as Hm. rewrite Hsame in Hm.
    apply (f_equal (@List.length Message)) in Hm.
    rewrite length_app in Hm. simpl in Hm. lia.
  - intros Hws. apply submit_blank, trim_whitespace, Hws.
Qed.

(** Witness for X7: an input of two spaces. *)
Lemma submit_noop_iff_whitespace_witness :
  step (set_input_value [32; 32] (init None)) SubmitForm =
  set_input_value [32; 32] (init None).
Proof.
  apply (proj2 (submit_noop_iff_whitespace (set_input_value [32; 32] (init None)))).
  reflexivity.
Defined.

(** X8. Submitting twice in a row is the same as submitting once: the
    handler empties the input, so the second submit finds nothing to
    send. *)
Theorem submit_twice_sends_once :
  forall w : Widget,
    step (step w SubmitForm) SubmitForm = step w SubmitForm.
Proof.
  intros w.
  destruct (trim (input_value w)) as [|c t] eqn:Ht.
  - rewrite (submit_blank w Ht). apply submit_blank, Ht.
  - apply submit_blank. rewrite submit_clears_input; [reflexivity|].
    rewrite Ht. discriminate.
Qed.

(* ===================================================================== *)
(** ** Replies *)
(* ===================================================================== *)

Lemma remove_nth_filter {A : Type} (f : A -> bool) (l : list A) (n : nat) (t : A) :
  nth_error l n = Some t ->
  (List.length (filter f (remove_nth n l)) + (if f t then 1 else 0) =
   List.length (filter f l))%nat.
Proof.
  revert n. induction l as [|x l IH]; intros n H.
  - destruct n; discriminate.
  - destruct n as [|n]; simpl in *.
    + injection H as ->. destruct (f t); simpl; lia.
    + specialize (IH n H). destruct (f x); simpl; lia.
Qed.

(** What the submit handler does when [res.json()] settles: it appends one
    message of the bot, after at most a console log, and the await is
    gone. *)
Lemma json_settles_shape (w : Widget) (n : nat) (r : option json) :
  nth_error (pending w) n = Some ChatJson ->
  exists m w1,
    step w (JsonSettles n r) = append_child m w1 /\
    origin m = bot /\
    (w1 = take_task n w \/ exists e, w1 = emit (ELog e) (take_task n w)) /\
    (innerHTML m = js "Error contacting assistant." \/
     innerHTML m = js "Sorry, I had trouble answering." \/
     exists data s,
       r = Some data /\ get_answer data = Ok (str s) /\ s <> [] /\
       innerHTML m = formatText s).
Proof.
  intros Hn. rewrite (json_settles_chat w n r Hn). cbv zeta.
  assert (Herr : forall e,
    exists m w1,
      append_child error_message (emit (ELog e) (take_task n w)) =
        append_child m w1 /\
      origin m = bot /\
      (w1 = take_task n w \/ exists e, w1 = emit (ELog e) (take_task n w)) /\
      (innerHTML m = js "Error contacting assistant." \/
       innerHTML m = js "Sorry, I had trouble answering." \/
       exists data s,
         r = Some data /\ get_answer data = Ok (str s) /\ s <> [] /\
         innerHTML m = formatText s)).
  { intros e. exists error_message, (emit (ELog e) (take_task n w)).
    repeat split; [right; exists e; reflexivity|left; reflexivity]. }
  destruct r as [data|]; [|apply Herr].
  destruct (get_answer data) as [answer|e] eqn:Ha; [|apply Herr].
  destruct (truthy answer) eqn:Ht; unfold or_else; rewrite Ht.
  - destruct answer as [|[| | |s| |]]; try apply Herr.
    exists {| origin := bot; innerHTML := formatText s |}, (take_task n w).
    repeat split; [left; reflexivity|].
    right. right. exists data, s. repeat split; [exact Ha|].
    destruct s; [discriminate|discriminate].
  - unfold formatText_of, str. rewrite formatText_sorry_text.
    exists sorry_message, (take_task n w).
    repeat split; [left; reflexivity|right; left; reflexivity].
Qed.

(** X9. When the response is JSON with a non-empty string [answer], the
    message of the bot is that answer passed through [formatText]; it is
    the new last message, the await is gone and no request is made. *)
Theorem string_answer_is_rendered :
  forall (w : Widget) (n : nat) (data : json) (s : jsstring),
    nth_error (pending w) n = Some ChatJson ->
    get_answer data = Ok (str s) ->
    s <> [] ->
    messages (step w (JsonSettles n (Some data))) =
      messages w ++ [{| origin := bot; innerHTML := formatText s |}] /\
    pending (step w (JsonSettles n (Some data))) = remove_nth n (pending w) /\
    fetches (step w (JsonSettles n (Some data))) = fetches w.
Proof.
  intros w n data s Hn Ha Hs.
  rewrite json_settles_chat by exact Hn. cbv zeta. rewrite Ha.
  unfold or_else, str, truthy. rewrite (is_empty_false _ Hs). simpl.
  repeat split. rewrite fetches_append_child. reflexivity.
Qed.

(** Witness for X9: the answer is a two-item bullet list. *)
Lemma string_answer_is_rendered_witness :
  messages
    (step (set_pending [ChatJson] (init None))
       (JsonSettles 0
          (Some (JObj [(js "answer", JStr (js "* a" ++ [LF] ++ js "* b"))])))) =
  [{| origin := bot; innerHTML := js "<ul><li>a</li><li>b</li></ul>" |}].
Proof.
  apply (string_answer_is_rendered
           (set_pending [ChatJson] (init None)) 0
           (JObj [(js "answer", JStr (js "* a" ++ [LF] ++ js "* b"))])
           (js "* a" ++ [LF] ++ js "* b")).
  - reflexivity.
  - reflexivity.
  - discriminate.
Defined.

(** X10. Whatever [res.json()] settles to, the submit handler appends
    exactly one message, of the bot, and the exchange is over: the await
    is removed and no request is made.  The message is the error text, the
    fallback text, or a non-empty string answer passed through
    [formatText]. *)
Theorem every_response_renders_one_reply :
  forall (w : Widget) (n : nat) (r : option json),
    nth_error (pending w) n = Some ChatJson ->
    exists m,
      messages (step w (JsonSettles n r)) = messages w ++ [m] /\
      origin m = bot /\
      pending (step w (JsonSettles n r)) = remove_nth n (pending w) /\
      fetches (step w (JsonSettles n r)) = fetches w /\
      (innerHTML m = js "Error contacting assistant." \/
       innerHTML m = js "Sorry, I had trouble answering." \/
       exists data s,
         r = Some data /\ get_answer data = Ok (str s) /\ s <> [] /\
         innerHTML m = formatText s).
Proof.
  intros w n r Hn.
  destruct (json_settles_shape w n r Hn) as (m & w1 & Hstep & Hbot & Hw1 & Htext).
  exists m. rewrite Hstep.
  destruct Hw1 as [->|[e ->]].
  - repeat split; try assumption. rewrite fetches_append_child. reflexivity.
  - repeat split; try assumption.
    rewrite fetches_append_child, fetches_emit_log. reflexivity.
Qed.

(** Witness for X10: the body is the number 7. *)
Lemma every_response_renders_one_reply_witness :
  exists m,
    messages
      (step (set_pending [ChatJson] (init None))
         (JsonSettles 0 (Some (JNum (S754_finite false 7%positive Z0))))) = [m] /\
    origin m = bot.
Proof.
  destruct (every_response_renders_one_reply
              (set_pending [ChatJson] (init None)) 0
              (Some (JNum (S754_finite false 7%positive Z0))) eq_refl)
    as (m & Hm & Hbot & _).
  exists m. split; [exact Hm|exact Hbot].
Defined.

(* ===================================================================== *)
(** ** The conversation as a whole *)
(* ===================================================================== *)

Lemma count_snoc {A : Type} (f : A -> bool) (l : list A) (x : A) :
  List.length (filter f (l ++ [x])) =
  (List.length (filter f l) + if f x then 1 else 0)%nat.
Proof.
  rewrite filter_app, length_app. simpl. destruct (f x); reflexivity.
Qed.

(** One event changes the numbers of user messages, bot messages and
    exchanges in flight together. *)
Lemma step_balance (w : Widget) (ev : Event) :
  (List.length (filter from_user (messages (step w ev))) +
   List.length (filter from_bot (messages w)) + chat_in_flight w =
   List.length (filter from_user (messages w)) +
   List.length (filter from_bot (messages (step w ev))) +
   chat_in_flight (step w ev))%nat.
Proof.
  destruct ev.
  - rewrite toggle_click_spec.
    destruct (negb (open w) && negb (reindexed w)); [|reflexivity].
    unfold chat_in_flight; simpl. rewrite count_snoc. simpl. lia.
  - reflexivity.
  - rewrite submit_spec. cbv zeta.
    destruct (is_empty (trim (input_value w))); [reflexivity|].
    destruct (csrf_meta w); unfold chat_in_flight; simpl.
    + rewrite !count_snoc. simpl. lia.
    + rewrite !count_snoc. simpl. lia.
  - reflexivity.
  - reflexivity.
  - destruct (nth_error (pending w) n) as [[| |]|] eqn:Hn;
      try (unfold step; rewrite Hn; reflexivity).
    + rewrite fetch_settles_reindex by exact Hn.
      pose proof (remove_nth_filter is_chat_task _ _ _ Hn) as Hr.
      destruct ok; unfold chat_in_flight; simpl in *; lia.
    + rewrite fetch_settles_chat by exact Hn.
      pose proof (remove_nth_filter is_chat_task _ _ _ Hn) as Hr.
      destruct ok; unfold chat_in_flight; simpl in *.
      * rewrite count_snoc. simpl. lia.
      * rewrite !count_snoc. simpl. lia.
  - destruct (nth_error (pending w) n) as [[| |]|] eqn:Hn;
      try (unfold step; rewrite Hn; reflexivity).
    destruct (json_settles_shape w n r Hn) as (m & w1 & Hstep & Hbot & Hw1 & _).
    pose proof (remove_nth_filter is_chat_task _ _ _ Hn) as Hr.
    rewrite Hstep. unfold chat_in_flight.
    assert (Hmsgs : messages (append_child m w1) = messages w ++ [m])
      by (destruct Hw1 as [->|[e ->]]; reflexivity).
    assert (Hpend : pending (append_child m w1) = remove_nth n (pending w))
      by (destruct Hw1 as [->|[e ->]]; reflexivity).
    rewrite Hmsgs, Hpend, !count_snoc.
    unfold from_user, from_bot. rewrite Hbot. simpl in Hr. lia.
Qed.

(** X11. At every moment of a page's life each message of the user has
    either got its reply or is still waiting for it: the number of user
    messages equals the number of bot messages plus the number of chat
    exchanges in flight. *)
Theorem replies_match_questions :
  forall (meta : option (option jsstring)) (evs : list Event),
    List.length (filter from_user (messages (run (init meta) evs))) =
    (List.length (filter from_bot (messages (run (init meta) evs))) +
     chat_in_flight (run (init meta) evs))%nat.
Proof.
  intros meta evs. induction evs as [|ev evs IH] using rev_ind; [reflexivity|].
  rewrite run_snoc. pose proof (step_balance (run (init meta) evs) ev). lia.
Qed.

Lemma step_appends (w : Widget) (ev : Event) :
  exists added, messages (step w ev) = messages w ++ added.
Proof.
  destruct ev; try (exists []; rewrite app_nil_r; reflexivity).
  - rewrite toggle_click_spec. exists []. rewrite app_nil_r.
    destruct (negb (open w) && negb (reindexed w)); reflexivity.
  - rewrite submit_spec. cbv zeta.
    destruct (is_empty (trim (input_value w)));
      [exists []; rewrite app_nil_r; reflexivity|].
    destruct (csrf_meta w); simpl; eexists;
      [reflexivity|rewrite <- app_assoc; reflexivity].
  - destruct (nth_error (pending w) n) as [[| |]|] eqn:Hn;
      try (unfold step; rewrite Hn; exists []; rewrite app_nil_r; reflexivity).
    + rewrite fetch_settles_reindex by exact Hn.
      exists []. rewrite app_nil_r. destruct ok; reflexivity.
    + rewrite fetch_settles_chat by exact Hn.
      destruct ok; [exists []; rewrite app_nil_r; reflexivity|].
      eexists. reflexivity.
  - destruct (nth_error (pending w) n) as [[| |]|] eqn:Hn;
      try (unfold step; rewrite Hn; exists []; rewrite app_nil_r; reflexivity).
    destruct (json_settles_shape w n r Hn) as (m & w1 & Hstep & _ & Hw1 & _).
    exists [m]. rewrite Hstep. destruct Hw1 as [->|[e ->]]; reflexivity.
Qed.

(** X12. The message list only grows: whatever happens, the messages
    rendered so far stay where they are, in their order, and new ones are
    added after them. *)
Theorem messages_only_grow :
  forall (w : Widget) (evs : list Event),
    exists added, messages (run w evs) = messages w ++ added.
Proof.
  intros w evs. induction evs as [|ev evs IH] using rev_ind.
  - exists []. rewrite app_nil_r. reflexivity.
  - rewrite run_snoc. destruct IH as [added IH].
    destruct (step_appends (run w evs) ev) as [more Hmore].
    exists (added ++ more). rewrite Hmore, IH, app_assoc. reflexivity.
Qed.

(* ===================================================================== *)
(** ** The panel *)
(* ===================================================================== *)

(** X13. Two clicks on the toggle of a closed panel (open, then close)
    leave the panel closed and the reindex flag set; the conversation and
    the input are untouched, and the reindex call was made exactly when
    the flag was not set before. *)
Theorem toggle_twice_closed :
  forall w : Widget,
    open w = false ->
    open (run w [ClickToggle; ClickToggle]) = false /\
    reindexed (run w [ClickToggle; ClickToggle]) = true /\
    messages (run w [ClickToggle; ClickToggle]) = messages w /\
    input_value (run w [ClickToggle; ClickToggle]) = input_value w /\
    reindex_calls (run w [ClickToggle; ClickToggle]) =
      (reindex_calls w + if reindexed w then 0 else 1)%nat.
Proof.
  intros w Ho. unfold run. cbn [fold_left].
  rewrite (toggle_click_spec w), Ho.
  destruct (reindexed w) eqn:Hr; cbn [negb andb];
    rewrite toggle_click_spec; simpl; repeat split; try assumption.
  - unfold reindex_calls; simpl. lia.
  - unfold reindex_calls; simpl. rewrite filter_app, length_app. reflexivity.
Qed.

(** Witness for X13: the first two clicks on a fresh page. *)
Lemma toggle_twice_closed_witness :
  open (run (init None) [ClickToggle; ClickToggle]) = false /\
  reindexed (run (init None) [ClickToggle; ClickToggle]) = true.
Proof.
  destruct (toggle_twice_closed (init None) eq_refl) as (H1 & H2 & _).
  split; assumption.
Defined.

(** X14. Once the reindex flag is set it stays set and no event makes a
    second reindex call, whether the first request succeeded or failed;
    the settling of the reindex request, success or failure, shows
    nothing to the user and sends nothing. *)
Theorem reindex_never_retried :
  forall w : Widget,
    reindexed w = true ->
    (forall evs,
        reindexed (run w evs) = true /\
        reindex_calls (run w evs) = reindex_calls w) /\
    (forall n ok,
        nth_error (pending w) n = Some ReindexFetch ->
        messages (step w (FetchSettles n ok)) = messages w /\
        fetches (step w (FetchSettles n ok)) = fetches w /\
        pending (step w (FetchSettles n ok)) = remove_nth n (pending w)).
Proof.
  intros w Hr. split.
  - intros evs. induction evs as [|ev evs [IHr IHc]] using rev_ind.
    + split; [exact Hr|reflexivity].
    + rewrite run_snoc.
      destruct (step_keeps_reindex (run w evs) ev) as (Hc & Hf & _).
      { intros (_ & _ & H). congruence. }
      split; congruence.
  - intros n ok Hn. rewrite fetch_settles_reindex by exact Hn.
    destruct ok; repeat split.
    unfold fetches; simpl. rewrite filter_app. simpl. apply app_nil_r.
Qed.

(** Witness for X14: the reindex request of a fresh page fails, the panel
    is closed and opened again. *)
Lemma reindex_never_retried_witness :
  reindex_calls
    (run (step (init None) ClickToggle)
       [FetchSettles 0 false; ClickClose; ClickToggle]) = 1%nat.
Proof.
  destruct (reindex_never_retried (step (init None) ClickToggle) eq_refl)
    as [H _].
  destruct (H [FetchSettles 0 false; ClickClose; ClickToggle]) as [_ Hc].
  exact Hc.
Defined.

Lemma step_ignores_open (b : bool) (w : Widget) (ev : Event) :
  ev <> ClickToggle -> ev <> ClickClose ->
  step (set_open b w) ev = set_open b (step w ev).
Proof.
  intros Ht Hc. destruct ev; try congruence; try reflexivity.
  - rewrite !submit_spec. cbv zeta. simpl.
    destruct (is_empty (trim (input_value w))); [reflexivity|].
    destruct (csrf_meta w); reflexivity.
  - destruct (nth_error (pending w) n) as [[| |]|] eqn:Hn;
      try (unfold step; simpl; rewrite Hn; reflexivity).
    + rewrite (fetch_settles_reindex (set_open b w)) by exact Hn.
      rewrite (fetch_settles_reindex w) by exact Hn.
      destruct ok; reflexivity.
    + rewrite (fetch_settles_chat (set_open b w)) by exact Hn.
      rewrite (fetch_settles_chat w) by exact Hn.
      destruct ok; reflexivity.
  - destruct (nth_error (pending w) n) as [[| |]|] eqn:Hn;
      try (unfold step; simpl; rewrite Hn; reflexivity).
    rewrite (json_settles_chat (set_open b w)) by exact Hn.
    rewrite (json_settles_chat w) by exact Hn. cbv zeta.
    destruct r as [data|]; [|reflexivity].
    destruct (get_answer data); [|reflexivity].
    destruct (formatText_of _); reflexivity.
Qed.

(** X15. Closing the panel cancels nothing and changes nothing of the
    conversation: it commutes with every event other than a click on the
    toggle.  A response that arrives after the panel was closed is
    rendered exactly as if it had arrived before. *)
Theorem close_commutes :
  forall (w : Widget) (ev : Event),
    ev <> ClickToggle ->
    step (step w ClickClose) ev = step (step w ev) ClickClose.
Proof.
  intros w ev Ht. rewrite !close_click_spec.
  destruct ev; try congruence; try reflexivity;
    apply step_ignores_open; discriminate.
Qed.

(** Witness for X15: a reply arrives after the panel was closed. *)
Lemma close_commutes_witness :
  messages
    (run (set_pending [ChatJson] (set_open true (init None)))
       [ClickClose; JsonSettles 0 (Some (JObj [(js "answer", JStr (js "ok"))]))]) =
  [{| origin := bot; innerHTML := js "ok" |}].
Proof.
  unfold run. cbn [fold_left].
  rewrite (close_commutes (set_pending [ChatJson] (set_open true (init None)))
             (JsonSettles 0 (Some (JObj [(js "answer", JStr (js "ok"))])))).
  - reflexivity.
  - discriminate.
Defined.

(** X16. The token is read from the page when a request is made, not when
    the script is loaded.  After the page has changed its meta tag, the
    one request made by opening the panel is a POST to
    [/assistant/reindex] without body whose [X-CSRFToken] is the new
    content (the empty string when the tag is gone); the one request made
    by submitting is a POST to [/assistant/chat] with JSON content type
    whose [X-CSRFToken] is the new content and whose message is the
    trimmed input. *)
Theorem token_read_at_call_time :
  forall (w : Widget) (m : option (option jsstring)),
    (open w = false -> reindexed w = false ->
     exists r,
       fetches (run w [PageSetsMeta m; ClickToggle]) = fetches w ++ [EFetch r] /\
       url r = js "/assistant/reindex" /\
       method r = js "POST" /\
       content_type r = None /\
       csrf_header r =
         match m with
         | Some content => content
         | None => Some []
         end /\
       body_message r = None) /\
    (forall content,
        m = Some content ->
        trim (input_value w) <> [] ->
        exists r,
          fetches (run w [PageSetsMeta m; SubmitForm]) =
            fetches w ++ [EFetch r] /\
          url r = js "/assistant/chat" /\
          method r = js "POST" /\
          content_type r = Some (js "application/json") /\
          csrf_header r = content /\
          body_message r = Some (trim (input_value w))).
Proof.
  intros w m. split.
  - intros Ho Hr. unfold run. cbn [fold_left].
    rewrite toggle_click_spec. simpl. rewrite Ho, Hr. simpl.
    eexists. split.
    + unfold fetches; simpl. rewrite filter_app. reflexivity.
    + repeat split.
  - intros content -> Hne. unfold run. cbn [fold_left].
    rewrite submit_spec. cbv zeta. simpl.
    rewrite (is_empty_false _ Hne).
    eexists. split.
    + unfold fetches; simpl. rewrite !filter_app. simpl.
      rewrite app_nil_r. reflexivity.
    + repeat split.
Qed.

(** Witness for X16: the page replaces its token before the first
    message is sent. *)
Lemma token_read_at_call_time_witness :
  fetches
    (run (set_input_value (js " hi ") (init (Some (Some (js "old")))))
       [PageSetsMeta (Some (Some (js "new"))); SubmitForm]) =
  [EFetch {| url := js "/assistant/chat"; method := js "POST";
             content_type := Some (js "application/json");
             csrf_header := Some (js "new");
             body_message := Some (js "hi") |}].
Proof.
  destruct (token_read_at_call_time
              (set_input_value (js " hi ") (init (Some (Some (js "old")))))
              (Some (Some (js "new")))) as [_ H].
  destruct (H (Some (js "new")) eq_refl) as (r & Hf & Hu & Hm & Hc & Ht & Hb).
  - vm_compute. discriminate.
  - rewrite Hf. destruct r as [u me ct tok body]. simpl in *.
    rewrite Hu, Hm, Hc, Ht, Hb. reflexivity.
Defined.
